(** * openai-deep-research-mcp: the research request lifecycle

    A shallow embedding of the three tool handlers of the MCP server
    ([openai_deep_research_create], [openai_deep_research_check_status],
    [openai_deep_research_get_results]) as the repository has them, in its
    two forms:

    - [Dist]: [dist/server.js], the build the package runs ([main] and [bin]
      of package.json, and the file the test suite spawns);
    - [Ts]: [src/server.ts], the TypeScript source kept next to it.

    The two differ: [Dist] tracks the OpenAI response id and reconciles the
    local status with [client.responses.retrieve]; [Ts] keeps the response
    of the create call and moves a request to completed by elapsed time.

    What is modelled and how:
    - the documents of the OpenAI API as JSON values ([Json]); a JavaScript
      value that may be [undefined] is an [option Json];
    - [researchRequests], the global [Map], as the list of the request
      objects in creation order together with the lookup JavaScript's
      [Map.get] performs after the [Map.set] calls made so far;
    - the handlers in a state and exception monad ([M]) over the request
      objects and the log of calls made to the OpenAI client;
    - the environment of one handler run ([Env]): the API key, the clock
      readings, the random suffix and the reply of the OpenAI API.

    Left out: [console.error] output, the MCP envelope
    ([{content: [{type: "text", text: JSON.stringify(..)}]}]) around each
    payload, and the [debug] member of two error payloads of [Dist]. *)

From stdpp Require Import base strings list pretty.
From Stdlib Require Import ZArith QArith.QArith_base Lia Ascii.

Local Open Scope string_scope.
Local Open Scope Z_scope.
Local Open Scope list_scope.
Local Set Warnings "-register-all,-notation-for-abbreviation".

(** ** JSON documents and JavaScript values *)

(** A JSON value as [JSON.parse] yields it. A number is the finite double
    it parses to, given as the rational it denotes; an object is the list
    of its own properties in insertion order. *)
Inductive Json : Type :=
| JNull
| JBool (b : bool)
| JNumber (q : Q)
| JString (s : string)
| JArray (items : list Json)
| JObject (fields : list (string * Json)).

(** A value that may be [undefined]: [None] is [undefined]. *)
Notation JsValue := (option Json).
Notation undefined := (@None Json).

(** JavaScript's ToBoolean: [undefined], [null], [false], [0] and the empty
    string are falsy; arrays and objects are truthy. *)
Definition truthy (v : JsValue) : bool :=
  match v with
  | None => false
  | Some JNull => false
  | Some (JBool b) => b
  | Some (JNumber q) => negb (Qnum q =? 0)%Z
  | Some (JString s) => negb (String.eqb s "")
  | Some (JArray _) => true
  | Some (JObject _) => true
  end.

Fixpoint assoc (fields : list (string * Json)) (name : string) : JsValue :=
  match fields with
  | [] => undefined
  | (k, v) :: rest => if String.eqb k name then Some v else assoc rest name
  end.

(** [v.name] for a [v] that is neither [null] nor [undefined], and a [name]
    among the identifiers the handlers read ([id], [status], [output],
    [content], [annotations], [title], [url], [snippet], [text]): an own
    property of an object; [undefined] on arrays, strings, numbers and
    booleans, whose prototypes define none of these names. *)
Definition get_field (v : Json) (name : string) : JsValue :=
  match v with
  | JObject fields => assoc fields name
  | _ => undefined
  end.

(** [v.name] where [v] is known to be truthy (so the read cannot throw), or
    [v?.name]: [undefined] on [null] and [undefined]. *)
Definition field (v : JsValue) (name : string) : JsValue :=
  match v with
  | Some w => get_field w name
  | None => undefined
  end.

(** [v === s] for a string literal [s]. *)
Definition is_string (v : JsValue) (s : string) : bool :=
  match v with
  | Some (JString t) => String.eqb t s
  | _ => false
  end.

(** [Array.isArray(v)]. *)
Definition isArray (v : JsValue) : bool :=
  match v with
  | Some (JArray _) => true
  | _ => false
  end.

(** ** The request record *)

Inductive Status : Type := pending | completed | failed.

Definition status_string (s : Status) : string :=
  match s with
  | pending => "pending"
  | completed => "completed"
  | failed => "failed"
  end.

Definition terminal (s : Status) : bool :=
  match s with
  | pending => false
  | _ => true
  end.

(** The two values of the [model] enum of [createRequestSchema]. *)
Inductive Model : Type := o3_deep_research | o4_mini_deep_research.

Definition model_string (m : Model) : string :=
  match m with
  | o3_deep_research => "o3-deep-research-2025-06-26"
  | o4_mini_deep_research => "o4-mini-deep-research-2025-06-26"
  end.

(** [ResearchRequest]. The objects of [Dist] carry [openaiResponseId] and
    start without [response]; those of [Ts] carry [response] from the start
    and have no [openaiResponseId] (it stays [undefined]). [createdAt] is
    the [Date] as milliseconds since the epoch. *)
Record ResearchRequest : Type := mkRequest {
  id : string;
  query : string;
  systemMessage : option string;
  model : Model;
  status : Status;
  response : JsValue;
  error : option string;
  createdAt : Z;
  openaiResponseId : JsValue
}.

Definition set_status (s : Status) (r : ResearchRequest) : ResearchRequest :=
  mkRequest (id r) (query r) (systemMessage r) (model r) s
            (response r) (error r) (createdAt r) (openaiResponseId r).

Definition set_response (v : JsValue) (r : ResearchRequest) : ResearchRequest :=
  mkRequest (id r) (query r) (systemMessage r) (model r) (status r)
            v (error r) (createdAt r) (openaiResponseId r).

Definition set_error (e : string) (r : ResearchRequest) : ResearchRequest :=
  mkRequest (id r) (query r) (systemMessage r) (model r) (status r)
            (response r) (Some e) (createdAt r) (openaiResponseId r).

(** ** researchRequests *)

(** [researchRequests] maps an id to a request object, and the handlers
    assign to the fields of the object they get from it. The model keeps
    the request objects ever stored, oldest first; the position of an
    object is its identity. A [set] under a key that is already present
    binds the key to the new object and leaves the earlier object as it
    is, out of reach of every later [get]; here it stays in the list. *)
Notation Requests := (list ResearchRequest).

(** Position of the object [researchRequests.get(key)] returns: the last
    one stored under [key], a later [set] with the same key having taken
    the place of an earlier one. *)
Fixpoint find_last (rs : Requests) (key : string) : option nat :=
  match rs with
  | [] => None
  | r :: rest =>
      match find_last rest key with
      | Some i => Some (S i)
      | None => if String.eqb (id r) key then Some 0%nat else None
      end
  end.

Definition requests_get (rs : Requests) (key : string)
  : option (nat * ResearchRequest) :=
  match find_last rs key with
  | Some l => match rs !! l with
              | Some r => Some (l, r)
              | None => None
              end
  | None => None
  end.

(** [researchRequests.set(request.id, request)] with a new object. *)
Definition requests_set (rs : Requests) (request : ResearchRequest) : Requests :=
  rs ++ [request].

(** ** The OpenAI client *)

Record Message : Type := mkMessage { role : string; text : string }.

(** The two calls the handlers make on the client. [responses_create]
    always passes [reasoning: {summary: "auto"}] and [background: true]. *)
Inductive EngineCall : Type :=
| responses_create (model : Model) (input : list Message) (tools : list string)
| responses_retrieve (responseId : Json).

(** What awaiting a call gives: the parsed response, or a rejection with
    an [Error] whose [message] is given. *)
Inductive EngineReply : Type :=
| Resolves (doc : Json)
| Rejects (message : string).

(** The environment of one handler run. [apiKey] is
    [process.env.OPENAI_API_KEY]; [engine] answers the call the handler
    makes; [now] is the reading of [Date.now()], [created] that of the
    later [new Date()] in create, [rnd] is
    [Math.random().toString(36).substr(2, 9)]. *)
Record Env : Type := mkEnv {
  apiKey : option string;
  engine : EngineCall -> EngineReply;
  now : Z;
  created : Z;
  rnd : string
}.

(** ** The handler monad *)

Record World : Type := mkWorld {
  requests : Requests;
  calls : list EngineCall
}.

Inductive Outcome (A : Type) : Type :=
| Normal (a : A)
| Throw (message : string).
Arguments Normal {A} a.
Arguments Throw {A} message.

Definition M (A : Type) : Type := World -> World * Outcome A.

Definition ret {A} (a : A) : M A := fun w => (w, Normal a).

Definition throw {A} (message : string) : M A := fun w => (w, Throw message).

Definition bind {A B} (m : M A) (k : A -> M B) : M B :=
  fun w =>
    match m w with
    | (w', Normal a) => k a w'
    | (w', Throw e) => (w', Throw e)
    end.

(** [try { m } catch (error) { handler(message of error) }]: what [m] did
    to the requests before throwing stays done. *)
Definition try_catch {A} (m : M A) (handler : string -> M A) : M A :=
  fun w =>
    match m w with
    | (w', Normal a) => (w', Normal a)
    | (w', Throw e) => handler e w'
    end.

Notation "x <- m ;; k" := (bind m (fun x => k))
  (at level 100, m at next level, right associativity,
   format "'[v' x  <-  m  ;;  '/' k ']'").

(** A computation that touches neither the requests nor the client. *)
Definition lift {A} (o : Outcome A) : M A := fun w => (w, o).

(** [researchRequests.get(key)]. *)
Definition get_request (key : string) : M (option (nat * ResearchRequest)) :=
  fun w => (w, Normal (requests_get (requests w) key)).

(** An assignment to fields of the object at position [l]; gives the
    object as it is afterwards. *)
Definition assign (l : nat) (f : ResearchRequest -> ResearchRequest)
           (request : ResearchRequest) : M ResearchRequest :=
  fun w => (mkWorld (<[l := f request]> (requests w)) (calls w),
            Normal (f request)).

Definition store (request : ResearchRequest) : M unit :=
  fun w => (mkWorld (requests_set (requests w) request) (calls w), Normal tt).

(** [getOpenAIClient()]: throws when the key is missing or empty. *)
Definition getOpenAIClient (env : Env) : M unit :=
  match apiKey env with
  | Some k => if String.eqb k "" then
                throw "OPENAI_API_KEY environment variable is required"
              else ret tt
  | None => throw "OPENAI_API_KEY environment variable is required"
  end.

(** [await client.responses.create(..)] or [.retrieve(..)]: the call is
    made, and a rejection is thrown. *)
Definition await (env : Env) (c : EngineCall) : M Json :=
  fun w =>
    let w' := mkWorld (requests w) (calls w ++ [c]) in
    match engine env c with
    | Resolves doc => (w', Normal doc)
    | Rejects message => (w', Throw message)
    end.

(** [v.name] with no guard before it: a TypeError on [null]. *)
Definition member (v : Json) (name : string) : M JsValue :=
  match v with
  | JNull => throw ("Cannot read properties of null (reading '" +:+ name +:+ "')")
  | _ => ret (get_field v name)
  end.

(** ** Payloads *)

(** [Citation]: [title] is whatever [annotation.title || "Unknown"] gives;
    [url] and [snippet] are [undefined] when the annotation has none
    ([JSON.stringify] then leaves the member out). *)
Record Citation : Type := mkCitation {
  citation_id : nat;
  title : Json;
  url : JsValue;
  snippet : JsValue
}.

(** [mainContent.text || String(mainContent)]: the text when it is truthy,
    otherwise the string rendering of the content block, which is kept as
    the block it renders. *)
Inductive Report : Type :=
| report_text (text : Json)
| report_String (mainContent : Json).

(** The object each handler passes to [JSON.stringify]. *)
Inductive Payload : Type :=
| Created (request_id : string)
    (* {request_id, status: "pending", message: "Research request created successfully"} *)
| Failure (error : string) (status : string)
    (* {error, status} *)
| StatusReport (request_id : string) (status : Status) (query : string)
               (model : Model) (created_at : Z) (elapsed_minutes : Z)
| Results (request_id : string) (query : string) (model : Model)
          (report : Report) (citations : list Citation) (citation_count : nat).
    (* {request_id, status: "completed", query, model, results: {..}} *)

Definition is_results (p : Payload) : bool :=
  match p with
  | Results _ _ _ _ _ _ => true
  | _ => false
  end.

(** ** What the two builds share *)

(** [`req_${Date.now()}_${Math.random().toString(36).substr(2, 9)}`]. *)
Definition requestId (env : Env) : string :=
  "req_" +:+ pretty (now env) +:+ "_" +:+ rnd env.

(** Whether the character [c] occurs in [s]. *)
Fixpoint occurs (c : ascii) (s : string) : bool :=
  match s with
  | EmptyString => false
  | String a rest => Ascii.eqb a c || occurs c rest
  end.

Record CreateInputs : Type := mkInputs {
  in_query : string;
  in_system_message : option string;
  in_model : Model;
  in_include_code_interpreter : bool
}.

(** [inputMessages]: the developer message first, when [system_message]
    is given and not empty, then the user message. *)
Definition inputMessages (inputs : CreateInputs) : list Message :=
  match in_system_message inputs with
  | Some m => if String.eqb m "" then [] else [mkMessage "developer" m]
  | None => []
  end ++ [mkMessage "user" (in_query inputs)].

Definition tools (inputs : CreateInputs) : list string :=
  "web_search_preview" ::
  (if in_include_code_interpreter inputs then ["code_interpreter"] else []).

Definition create_call (inputs : CreateInputs) : EngineCall :=
  responses_create (in_model inputs) (inputMessages inputs) (tools inputs).

(** Milliseconds from [createdAt] to the reading [now] of the clock.
    [elapsedMinutes] is this number divided by 1000 and by 60 in double
    arithmetic; both divisions are monotone and exact at 300000, so
    [elapsedMinutes > 5] holds exactly when more than 300000 ms have
    passed, and [Math.round] (half up) is the floor of the quotient by
    60000 after adding half a minute. *)
Definition elapsed_ms (env : Env) (request : ResearchRequest) : Z :=
  now env - createdAt request.

Definition more_than_5_minutes (ms : Z) : bool := 300000 <? ms.

Definition round_minutes (ms : Z) : Z := (ms + 30000) / 60000.

Definition status_report (env : Env) (request : ResearchRequest) : Payload :=
  StatusReport (id request) (status request) (query request) (model request)
               (createdAt request) (round_minutes (elapsed_ms env request)).

(** The citation the callback of [annotations.forEach] pushes for the
    [annotation] at [index]. *)
Definition citation_of (index : nat) (annotation : Json) : Citation :=
  mkCitation (index + 1)
    (if truthy (get_field annotation "title")
     then default JNull (get_field annotation "title")
     else JString "Unknown")
    (get_field annotation "url")
    (get_field annotation "snippet").

(** [annotations.forEach(..)] over the elements from [index] on, pushing
    onto [citations]; reading [annotation.title] throws on a [null]
    element. *)
Fixpoint forEach_push (annotations : list Json) (index : nat)
         (citations : list Citation) : Outcome (list Citation) :=
  match annotations with
  | [] => Normal citations
  | annotation :: rest =>
      match annotation with
      | JNull => Throw "Cannot read properties of null (reading 'title')"
      | _ => forEach_push rest (S index)
                          (citations ++ [citation_of index annotation])
      end
  end.

(** [if (mainContent.annotations) mainContent.annotations.forEach(..)]:
    a truthy [annotations] that is not an array has no [forEach] to call. *)
Definition extract_citations (mainContent : Json) : Outcome (list Citation) :=
  let annotations := get_field mainContent "annotations" in
  if truthy annotations then
    match annotations with
    | Some (JArray items) => forEach_push items 0 []
    | _ => Throw "mainContent.annotations.forEach is not a function"
    end
  else Normal [].

Definition reportText (mainContent : Json) : Report :=
  if truthy (get_field mainContent "text")
  then report_text (default JNull (get_field mainContent "text"))
  else report_String mainContent.

(** From "Extract citations" to the final [return] of get_results, the
    same in both builds, for a truthy [mainContent]. *)
Definition results_payload (request : ResearchRequest) (mainContent : Json)
  : Outcome Payload :=
  match extract_citations mainContent with
  | Normal citations =>
      Normal (Results (id request) (query request) (model request)
                      (reportText mainContent) citations (length citations))
  | Throw e => Throw e
  end.

#[global] Instance Status_eq_dec : EqDecision Status.
Proof. solve_decision. Defined.

(** [items] of an array, nothing for any other value. *)
Definition array_items (v : JsValue) : list Json :=
  match v with
  | Some (JArray items) => items
  | _ => []
  end.

(** A response that has no non-empty [output] array, or whose last
    message has no non-empty [content] array. *)
Definition malformed (response : JsValue) : Prop :=
  let output := field response "output" in
  let content := field (last (array_items output)) "content" in
  truthy output = false \/ isArray output = false \/ array_items output = []
  \/ truthy content = false \/ isArray content = false
  \/ array_items content = [].

Definition not_found (request_id : string) : Payload :=
  Failure ("Request ID " +:+ request_id +:+ " not found") "not_found".

Definition not_completed (request_id : string) (request : ResearchRequest)
  : Payload :=
  Failure ("Request " +:+ request_id +:+ " is not completed. Status: "
           +:+ status_string (status request))
          (status_string (status request)).

(** The three tools, and one run of a handler from the requests [rs]:
    the requests afterwards, the calls made on the client, and what the
    handler returned or threw. *)
Inductive Call : Type :=
| call_create (inputs : CreateInputs)
| call_check_status (request_id : string)
| call_get_results (request_id : string).

Definition run {A} (m : M A) (rs : Requests)
  : Requests * list EngineCall * Outcome A :=
  let '(w, o) := m (mkWorld rs []) in (requests w, calls w, o).

(** The payload a handler returns when the [try] of its body ends as
    [o]: the outer [catch] turns a throw into an error payload. *)
Definition caught (prefix status : string) (o : Outcome Payload) : Payload :=
  match o with
  | Normal p => p
  | Throw errorMessage => Failure (prefix +:+ errorMessage) status
  end.

Definition key_present (key : option string) : bool :=
  match key with
  | Some k => negb (String.eqb k "")
  | None => false
  end.

(** ** dist/server.js *)

Module Dist.

(** [openai_deep_research_create] (lines 47-118). *)
Definition create (env : Env) (inputs : CreateInputs) : M Payload :=
  try_catch
    (_ <- getOpenAIClient env ;;
     response <- await env (create_call inputs) ;;
     responseId <- member response "id" ;;
     _ <- store (mkRequest (requestId env) (in_query inputs)
                   (in_system_message inputs) (in_model inputs) pending
                   undefined None (created env) responseId) ;;
     ret (Created (requestId env)))
    (fun errorMessage =>
       ret (Failure ("Failed to create research request: " +:+ errorMessage)
                    "failed")).

(** The body of the inner [try] of check_status (lines 142-151). *)
Definition reconcile (env : Env) (l : nat) (request : ResearchRequest)
           (responseId : Json) : M ResearchRequest :=
  _ <- getOpenAIClient env ;;
  response <- await env (responses_retrieve responseId) ;;
  reported <- member response "status" ;;
  if is_string reported "completed" then
    assign l (fun r => set_response (Some response) (set_status completed r))
           request
  else if is_string reported "failed" then
    assign l (fun r => set_error "Research request failed" (set_status failed r))
           request
  else ret request.

(** [openai_deep_research_check_status] (lines 124-184). The inner
    [catch] only logs; nothing is assigned before a throw in its [try],
    so the object is as it was. *)
Definition check_status (env : Env) (request_id : string) : M Payload :=
  try_catch
    (found <- get_request request_id ;;
     match found with
     | None => ret (not_found request_id)
     | Some (l, request) =>
         request <-
           match openaiResponseId request with
           | Some responseId =>
               if truthy (Some responseId)
                  && bool_decide (status request = pending)
               then try_catch (reconcile env l request responseId)
                              (fun _ => ret request)
               else ret request
           | None => ret request
           end ;;
         ret (status_report env request)
     end)
    (fun errorMessage =>
       ret (Failure ("Failed to check status: " +:+ errorMessage) "error")).

(** Lines 216-236 of get_results: the response to extract from, with
    the request as it then is, or the payload of the inner [catch]. *)
Definition retrieve_if_missing (env : Env) (l : nat) (request : ResearchRequest)
  : M (ResearchRequest * JsValue + Payload) :=
  match openaiResponseId request with
  | Some responseId =>
      if truthy (Some responseId)
         && (negb (truthy (response request))
             || negb (truthy (field (response request) "output")))
      then
        try_catch
          (_ <- getOpenAIClient env ;;
           fullResponse <- await env (responses_retrieve responseId) ;;
           request' <- assign l (set_response (Some fullResponse)) request ;;
           ret (inl (request', Some fullResponse)))
          (fun errorMessage =>
             ret (inr (Failure ("Failed to retrieve results: " +:+ errorMessage)
                               "error")))
      else ret (inl (request, response request))
  | None => ret (inl (request, response request))
  end.

(** Lines 237-326 of get_results. *)
Definition extract (request : ResearchRequest) (response : JsValue)
  : Outcome Payload :=
  if negb (truthy response)
  then Normal (Failure "No results available" "error")
  else
    let output := field response "output" in
    if negb (truthy output) || negb (isArray output)
       || bool_decide (length (array_items output) = 0%nat)
    then Normal (Failure "No output available in response" "error")
    else
      let lastMessage := last (array_items output) in
      if negb (truthy lastMessage)
         || negb (truthy (field lastMessage "content"))
         || negb (isArray (field lastMessage "content"))
      then Normal (Failure "Unable to extract content from last message"
                           "error")
      else
        match head (array_items (field lastMessage "content")) with
        | Some mainContent =>
            if negb (truthy (Some mainContent))
            then Normal (Failure "No content in last message" "error")
            else results_payload request mainContent
        | None => Normal (Failure "No content in last message" "error")
        end.

(** [openai_deep_research_get_results] (lines 190-340). *)
Definition get_results (env : Env) (request_id : string) : M Payload :=
  try_catch
    (found <- get_request request_id ;;
     match found with
     | None => ret (not_found request_id)
     | Some (l, request) =>
         if negb (bool_decide (status request = completed))
         then ret (not_completed request_id request)
         else
           fetched <- retrieve_if_missing env l request ;;
           match fetched with
           | inl (request', response) => lift (extract request' response)
           | inr failure => ret failure
           end
     end)
    (fun errorMessage =>
       ret (Failure ("Failed to get results: " +:+ errorMessage) "error")).

Definition handle (env : Env) (c : Call) : M Payload :=
  match c with
  | call_create inputs => create env inputs
  | call_check_status request_id => check_status env request_id
  | call_get_results request_id => get_results env request_id
  end.

(** *** The changes a run makes *)

(** The assignments dist/server.js makes to a stored request [r] at
    position [l]: the two of check_status, decided by the status the
    retrieved response reports, and the one of get_results. *)
Inductive assignment (env : Env) (rs : Requests) (l : nat)
          (r : ResearchRequest) : Call -> ResearchRequest -> Prop :=
| assign_completed request_id ref doc :
    requests_get rs request_id = Some (l, r) ->
    status r = pending ->
    openaiResponseId r = Some ref ->
    engine env (responses_retrieve ref) = Resolves doc ->
    is_string (get_field doc "status") "completed" = true ->
    assignment env rs l r (call_check_status request_id)
               (set_response (Some doc) (set_status completed r))
| assign_failed request_id ref doc :
    requests_get rs request_id = Some (l, r) ->
    status r = pending ->
    openaiResponseId r = Some ref ->
    engine env (responses_retrieve ref) = Resolves doc ->
    is_string (get_field doc "status") "failed" = true ->
    assignment env rs l r (call_check_status request_id)
               (set_error "Research request failed" (set_status failed r))
| assign_fetched request_id ref doc :
    requests_get rs request_id = Some (l, r) ->
    status r = completed ->
    openaiResponseId r = Some ref ->
    truthy (field (response r) "output") = false ->
    engine env (responses_retrieve ref) = Resolves doc ->
    assignment env rs l r (call_get_results request_id)
               (set_response (Some doc) r).

(** How one handler run changes the request objects: not at all, by
    storing a new pending one, or by one assignment to one of them. *)
Inductive effect (env : Env) (rs : Requests) : Call -> Requests -> Prop :=
| effect_none c : effect env rs c rs
| effect_create inputs doc :
    engine env (create_call inputs) = Resolves doc ->
    key_present (apiKey env) = true ->
    effect env rs (call_create inputs)
      (rs ++ [mkRequest (requestId env) (in_query inputs)
                (in_system_message inputs) (in_model inputs) pending
                undefined None (created env) (get_field doc "id")])
| effect_assign c l r r' :
    assignment env rs l r c r' ->
    key_present (apiKey env) = true ->
    truthy (openaiResponseId r) = true ->
    effect env rs c (<[l := r']> rs).

(** The request after the inner [try] of check_status, given what
    awaiting [client.responses.retrieve] gave. *)
Definition reconciled (r : ResearchRequest) (reply : EngineReply)
  : ResearchRequest :=
  match reply with
  | Resolves doc =>
      if is_string (get_field doc "status") "completed"
      then set_response (Some doc) (set_status completed r)
      else if is_string (get_field doc "status") "failed"
           then set_error "Research request failed" (set_status failed r)
           else r
  | Rejects _ => r
  end.

(** What holds of every request object a process of dist/server.js can
    hold. *)
Definition well_formed (r : ResearchRequest) : Prop :=
  (is_Some (response r) <-> status r = completed)
  /\ (is_Some (error r) <-> status r = failed)
  /\ (status r <> pending -> truthy (openaiResponseId r) = true).

End Dist.

(** ** src/server.ts *)

Definition first_char (s : string) : JsValue :=
  match s with
  | String c _ => Some (JString (String c ""))
  | EmptyString => undefined
  end.

Fixpoint last_char (s : string) : JsValue :=
  match s with
  | EmptyString => undefined
  | String c EmptyString => Some (JString (String c ""))
  | String _ rest => last_char rest
  end.

(** [content?.[0]]: the first element of an array, the first character of
    a string, the property ["0"] of an object. *)
Definition first_element (content : JsValue) : JsValue :=
  match content with
  | Some (JArray items) => head items
  | Some (JString s) => first_char s
  | Some (JObject fields) => assoc fields "0"
  | _ => undefined
  end.

Module Ts.

Section Runtime.

(** For an [output] that is a plain object, [output[output.length - 1]]
    reads the property whose key the language runtime computes from
    the value [L] of [output.length] (ToString of ToNumber of [L],
    minus one). That conversion is not code of this repository; the
    handlers are given for any such conversion. *)
Variable index_key : JsValue -> string.

(** [output[output.length - 1]] for a truthy [output]: the last element
    of an array ([undefined] when it is empty), the last character of
    a string; numbers and booleans have no [length] and no property
    [NaN]. *)
Definition last_element (output : Json) : JsValue :=
  match output with
  | JArray items => last items
  | JString s => last_char s
  | JObject fields => assoc fields (index_key (assoc fields "length"))
  | _ => undefined
  end.

(** [openai_deep_research_create] (lines 78-156): the whole response
    of the create call is kept on the request. *)
Definition create (env : Env) (inputs : CreateInputs) : M Payload :=
  try_catch
    (_ <- getOpenAIClient env ;;
     response <- await env (create_call inputs) ;;
     _ <- store (mkRequest (requestId env) (in_query inputs)
                   (in_system_message inputs) (in_model inputs) pending
                   (Some response) None (created env) undefined) ;;
     ret (Created (requestId env)))
    (fun errorMessage =>
       ret (Failure ("Failed to create research request: " +:+ errorMessage)
                    "failed")).

(** [openai_deep_research_check_status] (lines 167-216): no call on
    the client; a pending request becomes completed once more than
    five minutes have passed since [createdAt]. *)
Definition check_status (env : Env) (request_id : string) : M Payload :=
  try_catch
    (found <- get_request request_id ;;
     match found with
     | None => ret (not_found request_id)
     | Some (l, request) =>
         request <-
           (if more_than_5_minutes (elapsed_ms env request)
               && bool_decide (status request = pending)
            then assign l (set_status completed) request
            else ret request) ;;
         ret (status_report env request)
     end)
    (fun errorMessage =>
       ret (Failure ("Failed to check status: " +:+ errorMessage) "error")).

(** Lines 256-314 of get_results. *)
Definition extract (request : ResearchRequest) : Outcome Payload :=
  match field (response request) "output" with
  | Some output =>
      if negb (truthy (Some output))
      then Normal (Failure "No results available" "error")
      else
        match first_element (field (last_element output) "content") with
        | Some mainContent =>
            if negb (truthy (Some mainContent))
            then Normal (Failure "Unable to extract results from response"
                                 "error")
            else results_payload request mainContent
        | None =>
            Normal (Failure "Unable to extract results from response"
                            "error")
        end
  | None => Normal (Failure "No results available" "error")
  end.

(** [openai_deep_research_get_results] (lines 227-327). *)
Definition get_results (env : Env) (request_id : string) : M Payload :=
  try_catch
    (found <- get_request request_id ;;
     match found with
     | None => ret (not_found request_id)
     | Some (l, request) =>
         if negb (bool_decide (status request = completed))
         then ret (not_completed request_id request)
         else lift (extract request)
     end)
    (fun errorMessage =>
       ret (Failure ("Failed to get results: " +:+ errorMessage) "error")).

Definition handle (env : Env) (c : Call) : M Payload :=
  match c with
  | call_create inputs => create env inputs
  | call_check_status request_id => check_status env request_id
  | call_get_results request_id => get_results env request_id
  end.

End Runtime.

(** *** The changes a run makes *)

(** The one assignment src/server.ts makes to a stored request [r] at
    position [l]: check_status, on a pending request, once more than
    300000 ms separate the clock reading from [createdAt]. *)
Inductive assignment (env : Env) (rs : Requests) (l : nat)
          (r : ResearchRequest) : Call -> ResearchRequest -> Prop :=
| assign_completed request_id :
    requests_get rs request_id = Some (l, r) ->
    status r = pending ->
    300000 < now env - createdAt r ->
    assignment env rs l r (call_check_status request_id)
               (set_status completed r).

(** How one handler run changes the request objects: not at all, by
    storing a new pending one that holds the response of the create
    call, or by that assignment. *)
Inductive effect (env : Env) (rs : Requests) : Call -> Requests -> Prop :=
| effect_none c : effect env rs c rs
| effect_create inputs doc :
    engine env (create_call inputs) = Resolves doc ->
    effect env rs (call_create inputs)
      (rs ++ [mkRequest (requestId env) (in_query inputs)
                (in_system_message inputs) (in_model inputs) pending
                (Some doc) None (created env) undefined])
| effect_assign c l r r' :
    assignment env rs l r c r' ->
    effect env rs c (<[l := r']> rs).

End Ts.

(** ** Reachable requests *)

(** The requests a server process can hold: none at start, then what any
    handler run leaves, in any environment that has the API key of the
    process. [handle] is the handler table of one of the two builds. *)
Inductive reachable (handle : Env -> Call -> M Payload) (key : option string)
  : Requests -> Prop :=
| reachable_start : reachable handle key []
| reachable_run rs env c :
    reachable handle key rs ->
    apiKey env = key ->
    reachable handle key (run (handle env c) rs).1.1.

(** The requests after a sequence of handler runs. *)
Fixpoint runs (handle : Env -> Call -> M Payload) (trace : list (Env * Call))
         (rs : Requests) : Requests :=
  match trace with
  | [] => rs
  | (env, c) :: rest => runs handle rest (run (handle env c) rs).1.1
  end.

(** ** Fields, payloads and traces *)

(** The fields no handler assigns to. *)
Definition same_fields (r r' : ResearchRequest) : Prop :=
  id r' = id r /\ query r' = query r /\ systemMessage r' = systemMessage r
  /\ model r' = model r /\ createdAt r' = createdAt r
  /\ openaiResponseId r' = openaiResponseId r.

(** The payloads each tool can return: create the created payload or an
    error of status ["failed"]; check_status a status report for the id
    asked or the not_found error; get_results the results for the id
    asked or an error whose status is not_found, the status of the
    request (pending or failed), or ["error"]. *)
Definition tool_payload (c : Call) (payload : Payload) : Prop :=
  match c, payload with
  | call_create _, Created _ => True
  | call_create _, Failure _ status => status = "failed"
  | call_check_status request_id, StatusReport rid _ _ _ _ _ =>
      rid = request_id
  | call_check_status _, Failure _ status => status = "not_found"
  | call_get_results request_id, Results rid _ _ _ _ _ => rid = request_id
  | call_get_results _, Failure _ status =>
      status = "not_found" \/ status = "pending" \/ status = "failed"
      \/ status = "error"
  | _, _ => False
  end.

(** The runs of [trace] that are creates do not reuse [request_id]. *)
Definition no_create_of (request_id : string) (trace : list (Env * Call)) : Prop :=
  Forall (fun '(env, c) =>
            match c with
            | call_create _ => requestId env <> request_id
            | _ => True
            end) trace.

(** ** Example data *)

(** A process with an API key, a client whose create call is answered by
    a queued response with id ["op_1"] and whose retrievals are answered
    by [retrieved], a clock that reads [now], and the suffix ["abc"]. *)
Definition example_key : option string := Some "sk-test".

Definition example_engine (retrieved : EngineReply) (c : EngineCall)
  : EngineReply :=
  match c with
  | responses_create _ _ _ =>
      Resolves (JObject [("id", JString "op_1"); ("status", JString "queued")])
  | responses_retrieve _ => retrieved
  end.

Definition example_env (retrieved : EngineReply) (now : Z) : Env :=
  mkEnv example_key (example_engine retrieved) now now "abc".

Definition example_inputs : CreateInputs :=
  mkInputs "ping" None o4_mini_deep_research false.

Definition example_index_key : JsValue -> string := fun _ => "NaN".

(** A completed response with three annotations on its answer: two with
    title and url, one with a snippet only. *)
Definition example_annotations : list Json :=
  [ JObject [("title", JString "Src"); ("url", JString "http://x")];
    JObject [("title", JString "Other"); ("url", JString "http://y")];
    JObject [("snippet", JString "quoted")] ].

Definition example_answer : Json :=
  JObject [("text", JString "pong");
           ("annotations", JArray example_annotations)].

Definition example_message : Json :=
  JObject [("content", JArray [example_answer])].

Definition example_response : Json :=
  JObject [("id", JString "op_1"); ("status", JString "completed");
           ("output", JArray [JObject [("type", JString "reasoning")];
                              example_message])].

(** A response reported completed, without [output]. *)
Definition example_bare_response : Json :=
  JObject [("id", JString "op_1"); ("status", JString "completed")].


(** The requests of dist/server.js after a create at time 1000, then
    after a check_status that retrieves [doc]. *)
Definition example_dist_created : Requests :=
  (run (Dist.handle (example_env (Rejects "unused") 1000)
          (call_create example_inputs)) []).1.1.

Definition example_dist_checked (doc : Json) : Requests :=
  (run (Dist.handle (example_env (Resolves doc) 2000)
          (call_check_status "req_1000_abc")) example_dist_created).1.1.

(** The requests of src/server.ts after a create at time 1000, then
    after a check_status at time 301001. *)
Definition example_ts_created : Requests :=
  (run (Ts.handle example_index_key (example_env (Rejects "unused") 1000)
          (call_create example_inputs)) []).1.1.

Definition example_ts_checked : Requests :=
  (run (Ts.handle example_index_key (example_env (Rejects "unused") 301001)
          (call_check_status "req_1000_abc")) example_ts_created).1.1.

(** The pending request that create stores in dist/server.js, the same
    once check_status has retrieved [doc] reported completed, and the one
    create stores in src/server.ts, pending and then completed. *)
Definition example_dist_request : ResearchRequest :=
  mkRequest "req_1000_abc" "ping" None o4_mini_deep_research pending
            undefined None 1000 (Some (JString "op_1")).

Definition example_dist_completed (doc : Json) : ResearchRequest :=
  set_response (Some doc) (set_status completed example_dist_request).

Definition example_ts_request : ResearchRequest :=
  mkRequest "req_1000_abc" "ping" None o4_mini_deep_research pending
            (Some (JObject [("id", JString "op_1"); ("status", JString "queued")]))
            None 1000 undefined.

(** get_results in dist/server.js after the check_status that cached the
    response without [output], the client now returning the full one. *)
Definition example_dist_fetched : Requests :=
  (run (Dist.handle (example_env (Resolves example_response) 3000)
          (call_get_results "req_1000_abc"))
       (example_dist_checked example_bare_response)).1.1.

(** A second create in the same millisecond that draws the same suffix. *)
Definition example_second_inputs : CreateInputs :=
  mkInputs "pong" None o3_deep_research false.

Definition example_ts_created_twice : Requests :=
  (run (Ts.create (example_env (Rejects "unused") 1000) example_second_inputs)
       example_ts_created).1.1.

Definition example_dist_created_twice : Requests :=
  (run (Dist.create (example_env (Rejects "unused") 1000) example_second_inputs)
       example_dist_created).1.1.

(** A client that answers the create call by a response whose one message
    has a string for [content], and the request src/server.ts then holds
    once check_status has completed it. *)
Definition example_string_response : Json :=
  JObject [("id", JString "op_2");
           ("output", JArray [JObject [("content", JString "hi")]])].

Definition example_string_env (now : Z) : Env :=
  mkEnv example_key (fun _ => Resolves example_string_response) now now "abc".

Definition example_string_request : ResearchRequest :=
  mkRequest "req_1000_abc" "ping" None o4_mini_deep_research completed
            (Some example_string_response) None 1000 undefined.

(** An environment whose client rejects every call. *)
Definition example_rejecting_env : Env :=
  mkEnv example_key (fun _ => Rejects "401 Incorrect API key provided")
        1000 1000 "abc".

(** A process without an API key. *)
Definition example_keyless_env : Env :=
  mkEnv None (example_engine (Rejects "unused")) 1000 1000 "abc".

(** A retrieved response that reports the research still running, and
    one that reports it failed. *)
Definition example_running_response : Json :=
  JObject [("id", JString "op_1"); ("status", JString "in_progress")].

Definition example_failed_response : Json :=
  JObject [("id", JString "op_1"); ("status", JString "failed")].

(** A client that answers the create call by a response without [id]. *)
Definition example_anonymous_response : Json :=
  JObject [("status", JString "queued")].

Definition example_anonymous_env : Env :=
  mkEnv example_key (fun _ => Resolves example_anonymous_response)
        1000 1000 "abc".

(** A completed response whose answer has a [null] among its
    annotations. *)
Definition example_null_answer : Json :=
  JObject [("text", JString "pong");
           ("annotations", JArray [JObject [("title", JString "Src")]; JNull])].

Definition example_null_message : Json :=
  JObject [("content", JArray [example_null_answer])].

Definition example_null_response : Json :=
  JObject [("id", JString "op_1"); ("status", JString "completed");
           ("output", JArray [example_null_message])].


(** Inputs with a system message and the code interpreter. *)
Definition example_guided_inputs : CreateInputs :=
  mkInputs "ping" (Some "Be brief") o3_deep_research true.

(** Handler runs that follow a first get_results: a status check, a
    create at another time, a get_results for another id. *)
Definition example_later_runs : list (Env * Call) :=
  [(example_env (Rejects "down") 9000, call_check_status "req_1000_abc");
   (example_env (Rejects "down") 9500, call_create example_second_inputs);
   (example_env (Rejects "down") 9600, call_get_results "req_9500_abc")].

(** * Properties *)

(** ** researchRequests lookups *)

Lemma find_last_lookup (rs : Requests) (key : string) (l : nat) :
  find_last rs key = Some l ->
  exists r, rs !! l = Some r /\ id r = key.
Proof.
  revert l. induction rs as [|r0 rest IH]; intros l; simpl; [discriminate|].
  destruct (find_last rest key) as [i|] eqn:E.
  - intros [= <-]. destruct (IH i eq_refl) as (r & Hr & Hid). eauto.
  - destruct (String.eqb (id r0) key) eqn:Ek; [|discriminate].
    intros [= <-]. exists r0. split; [reflexivity|].
    by apply String.eqb_eq.
Qed.

Lemma requests_get_Some (rs : Requests) (key : string) (l : nat)
      (r : ResearchRequest) :
  requests_get rs key = Some (l, r) ->
  rs !! l = Some r /\ id r = key /\ find_last rs key = Some l.
Proof.
  unfold requests_get. destruct (find_last rs key) as [i|] eqn:E; [|discriminate].
  destruct (find_last_lookup _ _ _ E) as (r0 & Hr0 & Hid).
  rewrite Hr0. intros [= <- <-]. auto.
Qed.

Lemma requests_get_None (rs : Requests) (key : string) :
  requests_get rs key = None -> find_last rs key = None.
Proof.
  unfold requests_get. destruct (find_last rs key) as [i|] eqn:E; [|reflexivity].
  destruct (find_last_lookup _ _ _ E) as (r0 & Hr0 & _). by rewrite Hr0.
Qed.

(** A new object stored under a key is the one the key gives from then
    on; the other keys give what they gave. *)
Lemma find_last_set (rs : Requests) (request : ResearchRequest) (key : string) :
  find_last (requests_set rs request) key =
  if String.eqb (id request) key then Some (length rs) else find_last rs key.
Proof.
  unfold requests_set. induction rs as [|r0 rest IH]; simpl.
  - by destruct (String.eqb (id request) key).
  - rewrite IH. destruct (String.eqb (id request) key); [reflexivity|].
    reflexivity.
Qed.

Lemma requests_get_set (rs : Requests) (request : ResearchRequest) :
  requests_get (requests_set rs request) (id request)
  = Some (length rs, request).
Proof.
  unfold requests_get. rewrite find_last_set, String.eqb_refl.
  unfold requests_set. by rewrite list_lookup_middle.
Qed.

Lemma requests_get_set_other (rs : Requests) (request : ResearchRequest)
      (key : string) :
  id request <> key ->
  requests_get (requests_set rs request) key = requests_get rs key.
Proof.
  intros Hne. unfold requests_get. rewrite find_last_set.
  destruct (String.eqb_spec (id request) key) as [|_]; [done|].
  destruct (find_last rs key) as [l|] eqn:E; [|done].
  destruct (find_last_lookup _ _ _ E) as (r & Hr & _).
  unfold requests_set. by rewrite (lookup_app_l_Some _ _ _ _ Hr), Hr.
Qed.

(** Assigning to fields other than [id] changes no lookup. *)
Lemma find_last_assign (rs : Requests) (l : nat) (r r' : ResearchRequest)
      (key : string) :
  rs !! l = Some r -> id r' = id r ->
  find_last (<[l := r']> rs) key = find_last rs key.
Proof.
  revert l. induction rs as [|r0 rest IH]; intros l Hl Hid; [done|].
  destruct l as [|l]; simpl in *.
  - injection Hl as ->. by rewrite Hid.
  - by rewrite (IH l Hl Hid).
Qed.

Lemma id_set_status s r : id (set_status s r) = id r.
Proof. reflexivity. Qed.
Lemma id_set_response v r : id (set_response v r) = id r.
Proof. reflexivity. Qed.
Lemma id_set_error e r : id (set_error e r) = id r.
Proof. reflexivity. Qed.

(** ** Running a handler *)

Ltac unfold_monad :=
  unfold run, get_request, assign, store, getOpenAIClient, await, member,
    lift in *;
  unfold try_catch, bind, ret, throw in *.

(** Case analysis on every test a handler makes, innermost first, so that
    the run computes as far as the case decides it. *)
Ltac split_tests :=
  repeat first
    [ discriminate
    | progress cbn in *
    | progress rewrite ?andb_false_r, ?andb_true_r, ?orb_false_r, ?orb_true_r in *
    | match goal with
      | |- context [bool_decide ?P] => destruct (bool_decide_reflect P)
      | |- context [match ?x with _ => _ end] =>
          lazymatch x with
          | context [match _ with _ => _ end] => fail
          | _ => destruct x eqn:?
          end
      end ].

(** [!response || !response.output] is [!response?.output]: a falsy
    [response] has no [output]. *)
Lemma missing_output (v : JsValue) :
  negb (truthy v) || negb (truthy (field v "output"))
  = negb (truthy (field v "output")).
Proof. destruct v as [[]|]; simpl; by rewrite ?orb_true_r. Qed.

(** A handler whose [catch] returns a payload never throws. *)
Lemma run_try_catch_returns {A} (m : M A) (h : string -> A) (rs : Requests) :
  exists a, (run (try_catch m (fun e => ret (h e))) rs).2 = Normal a.
Proof.
  unfold run, try_catch, ret.
  destruct (m (mkWorld rs [])) as [w' [a|e]]; simpl; eauto.
Qed.

Module DistFacts.

Import Dist.

#[local] Arguments extract : simpl never.
#[local] Arguments truthy : simpl never.
#[local] Arguments status_report : simpl never.

Lemma dist_create_effect env inputs rs :
  effect env rs (call_create inputs) (run (create env inputs) rs).1.1.
Proof.
  unfold create. unfold_monad. split_tests; try apply effect_none.
  all: match goal with
       | H : engine _ _ = Resolves ?d |- _ =>
           apply (effect_create env rs inputs d H)
       end.
  all: unfold key_present;
    repeat match goal with H : _ = _ |- _ => rewrite H end; done.
Qed.

Lemma dist_check_status_effect env request_id rs :
  effect env rs (call_check_status request_id)
         (run (check_status env request_id) rs).1.1.
Proof.
  unfold check_status, reconcile. unfold_monad.
  split_tests; try apply effect_none; subst.
  all: eapply effect_assign;
    [ first [ eapply assign_completed; by eauto
            | eapply assign_failed; by eauto ]
    | unfold key_present;
      repeat match goal with H : _ = _ |- _ => rewrite H end; done
    | congruence ].
Qed.

Lemma dist_get_results_effect env request_id rs :
  effect env rs (call_get_results request_id)
         (run (get_results env request_id) rs).1.1.
Proof.
  unfold get_results, retrieve_if_missing. unfold_monad.
  split_tests; try apply effect_none; subst.
  all: match goal with
       | H : _ && _ = true |- _ =>
           rewrite missing_output in H;
           apply andb_true_iff in H as [? H];
           apply negb_true_iff in H
       end.
  all: eapply effect_assign;
    [ eapply assign_fetched; by eauto
    | unfold key_present;
      repeat match goal with H : _ = _ |- _ => rewrite H end; done
    | congruence ].
Qed.

Lemma dist_handle_effect env c rs :
  effect env rs c (run (handle env c) rs).1.1.
Proof.
  destruct c; simpl;
    auto using dist_create_effect, dist_check_status_effect, dist_get_results_effect.
Qed.

Lemma dist_assignment_lookup env rs l r c r' :
  assignment env rs l r c r' -> rs !! l = Some r.
Proof.
  destruct 1;
    match goal with H : requests_get _ _ = Some _ |- _ =>
      by apply requests_get_Some in H as (? & _ & _) end.
Qed.

(** What the object at a position is after a run. *)
Lemma dist_effect_lookup env rs c rs' l r :
  effect env rs c rs' -> rs !! l = Some r ->
  exists r', rs' !! l = Some r' /\ (r' = r \/ assignment env rs l r c r').
Proof.
  intros Heff Hl. destruct Heff as [c|inputs doc Hdoc|c l0 r0 r0' Hassign].
  - eauto.
  - exists r. split; [|by left]. by apply lookup_app_l_Some.
  - pose proof (dist_assignment_lookup _ _ _ _ _ _ Hassign) as Hl0.
    destruct (decide (l = l0)) as [->|Hne].
    + assert (r0 = r) as -> by congruence.
      exists r0'. split; [|by right].
      apply list_lookup_insert_eq. by eapply lookup_lt_Some.
    + exists r. split; [|by left]. by rewrite list_lookup_insert_ne.
Qed.


Lemma dist_assignment_well_formed env rs l r c r' :
  assignment env rs l r c r' ->
  truthy (openaiResponseId r) = true ->
  well_formed r -> well_formed r'.
Proof.
  intros Hassign Href (Hresp & Herr & _).
  destruct Hassign; unfold well_formed; simpl.
  - repeat split; try done; eauto.
    intros He. apply Herr in He. congruence.
  - repeat split; try done; eauto.
    intros Hr. apply Hresp in Hr. congruence.
  - repeat split; try done; eauto; try (intros; tauto).
    all: intros He; apply Herr in He; congruence.
Qed.

Lemma dist_reachable_well_formed key rs :
  reachable handle key rs ->
  (rs <> [] -> key_present key = true)
  /\ forall l r, rs !! l = Some r -> well_formed r.
Proof.
  induction 1 as [|rs env c Hreach [IHkey IH] Hkey].
  - split; [done|]. intros l r Hl. by rewrite lookup_nil in Hl.
  - pose proof (dist_handle_effect env c rs) as Heff.
    generalize dependent ((run (handle env c) rs).1.1). intros rs' Heff.
    destruct Heff as [c|inputs doc Hdoc Hk|c l0 r0 r0' Hassign Hk Href].
    + auto.
    + split; [congruence|]. intros l r Hl.
      apply lookup_app_Some in Hl as [Hl|[_ Hl]]; [eauto|].
      apply list_lookup_singleton_Some in Hl as [_ <-].
      unfold well_formed; simpl. repeat split; try done.
      all: by intros [? ?].
    + split; [congruence|]. intros l r Hl.
      pose proof (dist_assignment_lookup _ _ _ _ _ _ Hassign) as Hl0.
      destruct (decide (l = l0)) as [->|Hne].
      * rewrite list_lookup_insert_eq in Hl by (by eapply lookup_lt_Some).
        injection Hl as <-. eapply dist_assignment_well_formed; eauto.
      * rewrite list_lookup_insert_ne in Hl by done. eauto.
Qed.

(** C2, as amended. In dist/server.js, for every request a process can
    hold, the cached response is set exactly when the status is
    completed. A run changes the cached response of a stored request
    only in two ways: check_status sets it, on a pending request that
    has none, to the response the API reports as completed, together
    with the move to completed (the first observed terminal success);
    get_results replaces it, on a completed request whose cached
    response has no truthy [output], by the response it retrieves. *)
Theorem cached_result key rs :
  reachable handle key rs ->
  (forall l r, rs !! l = Some r ->
     (is_Some (response r) <-> status r = completed))
  /\ (forall env c l r r',
        rs !! l = Some r ->
        (run (handle env c) rs).1.1 !! l = Some r' ->
        response r' <> response r ->
        exists request_id ref doc,
          requests_get rs request_id = Some (l, r) /\
          openaiResponseId r = Some ref /\
          engine env (responses_retrieve ref) = Resolves doc /\
          response r' = Some doc /\ status r' = completed /\
          ((c = call_check_status request_id /\
            status r = pending /\ response r = undefined /\
            is_string (get_field doc "status") "completed" = true)
           \/ (c = call_get_results request_id /\
               status r = completed /\
               truthy (field (response r) "output") = false))).
Proof.
  intros Hreach. destruct (dist_reachable_well_formed _ _ Hreach) as [_ Hwf].
  split; [intros l r Hl; apply (Hwf l r Hl)|].
  intros env c l r r' Hl Hl' Hne.
  destruct (dist_effect_lookup _ _ _ _ _ _ (dist_handle_effect env c rs) Hl)
    as (r2 & Hl2 & [->|Hassign]);
    rewrite Hl' in Hl2; injection Hl2 as ->; [done|].
  destruct (Hwf l r Hl) as (Hresp & _ & _).
  destruct Hassign; simpl in *; try done.
  - exists request_id, ref, doc. repeat split; try done. left.
    repeat split; try done.
    destruct (response r) eqn:E; [|done].
    assert (status r = completed) by (apply Hresp; eauto). congruence.
  - exists request_id, ref, doc. repeat split; try done. by right.
Qed.

(** *** check_status, case by case *)

Lemma dist_check_status_unknown env request_id rs :
  requests_get rs request_id = None ->
  run (check_status env request_id) rs
  = (rs, [], Normal (not_found request_id)).
Proof. intros H. unfold check_status. unfold_monad. cbn [requests calls]. by rewrite H. Qed.

Lemma dist_check_status_settled env request_id rs l r :
  requests_get rs request_id = Some (l, r) ->
  status r <> pending ->
  run (check_status env request_id) rs
  = (rs, [], Normal (status_report env r)).
Proof.
  intros H Hst. unfold check_status. unfold_monad. cbn [requests calls]. rewrite H.
  by split_tests.
Qed.

Lemma dist_check_status_no_reference env request_id rs l r :
  requests_get rs request_id = Some (l, r) ->
  truthy (openaiResponseId r) = false ->
  run (check_status env request_id) rs
  = (rs, [], Normal (status_report env r)).
Proof.
  intros H Href. unfold check_status. unfold_monad. cbn [requests calls]. rewrite H.
  split_tests; congruence.
Qed.

Lemma dist_check_status_pending env request_id rs l r ref :
  requests_get rs request_id = Some (l, r) ->
  status r = pending ->
  openaiResponseId r = Some ref ->
  truthy (Some ref) = true ->
  key_present (apiKey env) = true ->
  let r' := reconciled r (engine env (responses_retrieve ref)) in
  run (check_status env request_id) rs
  = (<[l := r']> rs, [responses_retrieve ref], Normal (status_report env r')).
Proof.
  intros H Hst Href Htr Hkey r'. subst r'.
  apply requests_get_Some in H as H'. destruct H' as (Hl & _ & _).
  unfold check_status, reconcile, reconciled, key_present in *.
  unfold_monad. cbn [requests calls]. rewrite H, Href, Htr.
  split_tests; rewrite ?list_insert_id by done; try done.
Qed.

(** *** get_results, case by case *)

Lemma dist_get_results_unknown env request_id rs :
  requests_get rs request_id = None ->
  run (get_results env request_id) rs
  = (rs, [], Normal (not_found request_id)).
Proof.
  intros H. unfold get_results. unfold_monad. cbn [requests calls].
  by rewrite H.
Qed.

Lemma dist_get_results_not_completed env request_id rs l r :
  requests_get rs request_id = Some (l, r) ->
  status r <> completed ->
  run (get_results env request_id) rs
  = (rs, [], Normal (not_completed request_id r)).
Proof.
  intros H Hst. unfold get_results. unfold_monad. cbn [requests calls].
  rewrite H. by split_tests.
Qed.

(** The cached response is used as it is when it has a truthy [output],
    and also when the request has no truthy [openaiResponseId]. *)
Lemma dist_get_results_cached env request_id rs l r :
  requests_get rs request_id = Some (l, r) ->
  status r = completed ->
  truthy (openaiResponseId r) = false
  \/ truthy (field (response r) "output") = true ->
  run (get_results env request_id) rs
  = (rs, [],
     Normal (caught "Failed to get results: " "error"
                    (extract r (response r)))).
Proof.
  intros H Hst Hcond. unfold get_results, retrieve_if_missing.
  unfold_monad. cbn [requests calls]. rewrite H.
  destruct (openaiResponseId r) as [ref|] eqn:Href.
  - rewrite missing_output.
    destruct Hcond as [-> | ->]; split_tests; done.
  - split_tests; done.
Qed.

(** Otherwise one retrieval is made. *)
Lemma dist_get_results_fetch env request_id rs l r ref :
  requests_get rs request_id = Some (l, r) ->
  status r = completed ->
  openaiResponseId r = Some ref ->
  truthy (Some ref) = true ->
  truthy (field (response r) "output") = false ->
  key_present (apiKey env) = true ->
  run (get_results env request_id) rs
  = match engine env (responses_retrieve ref) with
    | Resolves doc =>
        (<[l := set_response (Some doc) r]> rs, [responses_retrieve ref],
         Normal (caught "Failed to get results: " "error"
                   (extract (set_response (Some doc) r) (Some doc))))
    | Rejects message =>
        (rs, [responses_retrieve ref],
         Normal (Failure ("Failed to retrieve results: " +:+ message) "error"))
    end.
Proof.
  intros H Hst Href Htr Hout Hkey.
  unfold get_results, retrieve_if_missing, key_present in *.
  unfold_monad. cbn [requests calls]. rewrite H, Href, Htr, missing_output, Hout.
  split_tests; done.
Qed.

Lemma dist_get_results_no_key env request_id rs l r ref :
  requests_get rs request_id = Some (l, r) ->
  status r = completed ->
  openaiResponseId r = Some ref ->
  truthy (Some ref) = true ->
  truthy (field (response r) "output") = false ->
  key_present (apiKey env) = false ->
  run (get_results env request_id) rs
  = (rs, [],
     Normal (Failure ("Failed to retrieve results: "
                      +:+ "OPENAI_API_KEY environment variable is required")
                     "error")).
Proof.
  intros H Hst Href Htr Hout Hkey.
  unfold get_results, retrieve_if_missing, key_present in *.
  unfold_monad. cbn [requests calls]. rewrite H, Href, Htr, missing_output, Hout.
  split_tests; done.
Qed.

(** *** create, case by case *)

Lemma dist_create_no_key env inputs rs :
  key_present (apiKey env) = false ->
  run (create env inputs) rs
  = (rs, [],
     Normal (Failure ("Failed to create research request: "
                      +:+ "OPENAI_API_KEY environment variable is required")
                     "failed")).
Proof.
  intros Hkey. unfold create, key_present in *. unfold_monad.
  split_tests; done.
Qed.

Lemma dist_create_rejected env inputs rs message :
  key_present (apiKey env) = true ->
  engine env (create_call inputs) = Rejects message ->
  run (create env inputs) rs
  = (rs, [create_call inputs],
     Normal (Failure ("Failed to create research request: " +:+ message)
                     "failed")).
Proof.
  intros Hkey Hrej. unfold create, key_present in *. unfold_monad.
  rewrite Hrej. split_tests; done.
Qed.

Lemma dist_create_resolved env inputs rs doc :
  key_present (apiKey env) = true ->
  engine env (create_call inputs) = Resolves doc ->
  doc <> JNull ->
  run (create env inputs) rs
  = (requests_set rs
       (mkRequest (requestId env) (in_query inputs)
          (in_system_message inputs) (in_model inputs) pending
          undefined None (created env) (get_field doc "id")),
     [create_call inputs], Normal (Created (requestId env))).
Proof.
  intros Hkey Hres Hdoc. unfold create, key_present in *. unfold_monad.
  rewrite Hres. split_tests; done.
Qed.

(** A run of create that returns an error payload stored nothing. *)
Lemma dist_create_failure env inputs rs error status :
  (run (create env inputs) rs).2 = Normal (Failure error status) ->
  (run (create env inputs) rs).1.1 = rs.
Proof.
  unfold create. unfold_monad. split_tests; done.
Qed.

(** No handler run throws. *)
Lemma dist_handle_returns env c rs :
  exists payload, (run (handle env c) rs).2 = Normal payload.
Proof.
  destruct c; simpl; unfold create, check_status, get_results;
    apply run_try_catch_returns.
Qed.

(** *** The inner [try] of check_status, and the calls of a run *)

(** When the inner [try] of check_status throws, no request has been
    assigned to: the object check_status goes on with is the stored one. *)
Lemma dist_reconcile_throw env l request ref w w' message :
  reconcile env l request ref w = (w', Throw message) ->
  requests w' = requests w.
Proof.
  unfold reconcile. unfold_monad.
  destruct w as [rs cs]. split_tests; by intros [= <- _].
Qed.

(** A run makes at most one call on the client. *)
Lemma dist_handle_calls env c rs :
  (length (run (handle env c) rs).1.2 <= 1)%nat.
Proof.
  destruct c as [inputs|request_id|request_id]; simpl.
  - unfold create. unfold_monad. split_tests; lia.
  - unfold check_status, reconcile. unfold_monad. split_tests; lia.
  - unfold get_results, retrieve_if_missing. unfold_monad.
    split_tests; lia.
Qed.

End DistFacts.

Module TsFacts.

Import Ts.

#[local] Arguments extract : simpl never.
#[local] Arguments truthy : simpl never.
#[local] Arguments status_report : simpl never.
#[local] Arguments more_than_5_minutes : simpl never.

Lemma ts_create_effect env inputs rs :
  effect env rs (call_create inputs) (run (create env inputs) rs).1.1.
Proof.
  unfold create. unfold_monad. split_tests; try apply effect_none.
  all: match goal with
       | H : engine _ _ = Resolves ?d |- _ =>
           apply (effect_create env rs inputs d H)
       end.
Qed.

Lemma ts_check_status_effect env request_id rs :
  effect env rs (call_check_status request_id)
         (run (check_status env request_id) rs).1.1.
Proof.
  unfold check_status. unfold_monad.
  split_tests; try apply effect_none.
  eapply effect_assign, assign_completed; eauto.
  unfold more_than_5_minutes, elapsed_ms in *. lia.
Qed.

Lemma ts_get_results_effect index_key env request_id rs :
  (run (get_results index_key env request_id) rs).1.1 = rs.
Proof.
  unfold get_results. unfold_monad. by split_tests.
Qed.

Lemma ts_handle_effect index_key env c rs :
  effect env rs c (run (handle index_key env c) rs).1.1.
Proof.
  destruct c; simpl; auto using ts_create_effect, ts_check_status_effect.
  rewrite ts_get_results_effect. apply effect_none.
Qed.

Lemma ts_assignment_lookup env rs l r c r' :
  assignment env rs l r c r' -> rs !! l = Some r.
Proof.
  destruct 1;
    match goal with H : requests_get _ _ = Some _ |- _ =>
      by apply requests_get_Some in H as (? & _ & _) end.
Qed.

(** What the object at a position is after a run. *)
Lemma ts_effect_lookup env rs c rs' l r :
  effect env rs c rs' -> rs !! l = Some r ->
  exists r', rs' !! l = Some r' /\ (r' = r \/ assignment env rs l r c r').
Proof.
  intros Heff Hl. destruct Heff as [c|inputs doc Hdoc|c l0 r0 r0' Hassign].
  - eauto.
  - exists r. split; [|by left]. by apply lookup_app_l_Some.
  - pose proof (ts_assignment_lookup _ _ _ _ _ _ Hassign) as Hl0.
    destruct (decide (l = l0)) as [->|Hne].
    + assert (r0 = r) as -> by congruence.
      exists r0'. split; [|by right].
      apply list_lookup_insert_eq. by eapply lookup_lt_Some.
    + exists r. split; [|by left]. by rewrite list_lookup_insert_ne.
Qed.

(** C10. In src/server.ts no stored request is ever failed and none
    ever gets an [error]: every request a process can hold is pending or
    completed. The only change of status a handler run makes is from
    pending to completed, made by check_status on that request when
    more than five minutes (300000 ms) separate the clock reading from
    [createdAt]. *)
Theorem never_failed index_key key rs :
  reachable (handle index_key) key rs ->
  (forall l r, rs !! l = Some r ->
     (status r = pending \/ status r = completed) /\ error r = None)
  /\ (forall env c l r r',
        rs !! l = Some r ->
        (run (handle index_key env c) rs).1.1 !! l = Some r' ->
        status r' <> status r ->
        status r = pending /\ status r' = completed /\
        300000 < now env - createdAt r /\
        exists request_id,
          c = call_check_status request_id /\
          requests_get rs request_id = Some (l, r)).
Proof.
  intros Hreach. split.
  - induction Hreach as [|rs env c Hreach IH Hkey]; intros l r Hl.
    + by rewrite lookup_nil in Hl.
    + pose proof (ts_handle_effect index_key env c rs) as Heff.
      revert Hl. generalize dependent ((run (handle index_key env c) rs).1.1).
      intros rs' Heff Hl.
      destruct Heff as [c|inputs doc Hdoc|c l0 r0 r0' Hassign].
      * eauto.
      * apply lookup_app_Some in Hl as [Hl|[_ Hl]]; [eauto|].
        apply list_lookup_singleton_Some in Hl as [_ <-]. simpl. auto.
      * pose proof (ts_assignment_lookup _ _ _ _ _ _ Hassign) as Hl0.
        destruct (decide (l = l0)) as [->|Hne].
        -- rewrite list_lookup_insert_eq in Hl by (by eapply lookup_lt_Some).
           injection Hl as <-. destruct (IH _ _ Hl0) as [_ He].
           destruct Hassign. simpl. auto.
        -- rewrite list_lookup_insert_ne in Hl by done. eauto.
  - intros env c l r r' Hl Hl' Hne.
    destruct (ts_effect_lookup _ _ _ _ _ _ (ts_handle_effect index_key env c rs) Hl)
      as (r2 & Hl2 & [->|Hassign]);
      rewrite Hl' in Hl2; injection Hl2 as ->; [done|].
    destruct Hassign. eauto 10.
Qed.


(** *** check_status, case by case *)

Lemma ts_check_status_unknown env request_id rs :
  requests_get rs request_id = None ->
  run (check_status env request_id) rs
  = (rs, [], Normal (not_found request_id)).
Proof.
  intros H. unfold check_status. unfold_monad. cbn [requests calls].
  by rewrite H.
Qed.

Lemma ts_check_status_settled env request_id rs l r :
  requests_get rs request_id = Some (l, r) ->
  status r <> pending ->
  run (check_status env request_id) rs
  = (rs, [], Normal (status_report env r)).
Proof.
  intros H Hst. unfold check_status. unfold_monad. cbn [requests calls].
  rewrite H. by split_tests.
Qed.


Lemma ts_check_status_late env request_id rs l r :
  requests_get rs request_id = Some (l, r) ->
  status r = pending ->
  300000 < now env - createdAt r ->
  run (check_status env request_id) rs
  = (<[l := set_status completed r]> rs, [],
     Normal (status_report env (set_status completed r))).
Proof.
  intros H Hst Hlate. unfold check_status. unfold_monad. cbn [requests calls].
  rewrite H. split_tests; try done.
  unfold more_than_5_minutes, elapsed_ms in *. lia.
Qed.

(** *** get_results, case by case *)

Lemma ts_get_results_unknown index_key env request_id rs :
  requests_get rs request_id = None ->
  run (get_results index_key env request_id) rs
  = (rs, [], Normal (not_found request_id)).
Proof.
  intros H. unfold get_results. unfold_monad. cbn [requests calls].
  by rewrite H.
Qed.

Lemma ts_get_results_not_completed index_key env request_id rs l r :
  requests_get rs request_id = Some (l, r) ->
  status r <> completed ->
  run (get_results index_key env request_id) rs
  = (rs, [], Normal (not_completed request_id r)).
Proof.
  intros H Hst. unfold get_results. unfold_monad. cbn [requests calls].
  rewrite H. by split_tests.
Qed.

Lemma ts_get_results_completed index_key env request_id rs l r :
  requests_get rs request_id = Some (l, r) ->
  status r = completed ->
  run (get_results index_key env request_id) rs
  = (rs, [],
     Normal (caught "Failed to get results: " "error" (extract index_key r))).
Proof.
  intros H Hst. unfold get_results. unfold_monad. cbn [requests calls].
  rewrite H. by split_tests.
Qed.

(** *** create, case by case *)

Lemma ts_create_no_key env inputs rs :
  key_present (apiKey env) = false ->
  run (create env inputs) rs
  = (rs, [],
     Normal (Failure ("Failed to create research request: "
                      +:+ "OPENAI_API_KEY environment variable is required")
                     "failed")).
Proof.
  intros Hkey. unfold create, key_present in *. unfold_monad.
  split_tests; done.
Qed.

Lemma ts_create_rejected env inputs rs message :
  key_present (apiKey env) = true ->
  engine env (create_call inputs) = Rejects message ->
  run (create env inputs) rs
  = (rs, [create_call inputs],
     Normal (Failure ("Failed to create research request: " +:+ message)
                     "failed")).
Proof.
  intros Hkey Hrej. unfold create, key_present in *. unfold_monad.
  rewrite Hrej. split_tests; done.
Qed.

Lemma ts_create_resolved env inputs rs doc :
  key_present (apiKey env) = true ->
  engine env (create_call inputs) = Resolves doc ->
  run (create env inputs) rs
  = (requests_set rs
       (mkRequest (requestId env) (in_query inputs)
          (in_system_message inputs) (in_model inputs) pending
          (Some doc) None (created env) undefined),
     [create_call inputs], Normal (Created (requestId env))).
Proof.
  intros Hkey Hres. unfold create, key_present in *. unfold_monad.
  rewrite Hres. split_tests; done.
Qed.

(** A run of create that returns an error payload stored nothing. *)
Lemma ts_create_failure env inputs rs error status :
  (run (create env inputs) rs).2 = Normal (Failure error status) ->
  (run (create env inputs) rs).1.1 = rs.
Proof.
  unfold create. unfold_monad. split_tests; done.
Qed.

(** No handler run throws. *)
Lemma ts_handle_returns index_key env c rs :
  exists payload, (run (handle index_key env c) rs).2 = Normal payload.
Proof.
  destruct c; simpl; unfold create, check_status, get_results;
    apply run_try_catch_returns.
Qed.

End TsFacts.

(** ** Status is monotonic (both builds) *)

Lemma dist_assignment_status env rs l r c r' :
  Dist.assignment env rs l r c r' ->
  status r' = status r \/ status r = pending.
Proof. destruct 1; simpl; auto. Qed.

Lemma ts_assignment_status env rs l r c r' :
  Ts.assignment env rs l r c r' ->
  status r' = status r \/ status r = pending.
Proof. destruct 1; simpl; auto. Qed.

Lemma dist_run_status env c rs l r :
  rs !! l = Some r ->
  exists r', (run (Dist.handle env c) rs).1.1 !! l = Some r'
             /\ (status r' = status r \/ status r = pending).
Proof.
  intros Hl.
  destruct (DistFacts.dist_effect_lookup _ _ _ _ _ _
              (DistFacts.dist_handle_effect env c rs) Hl)
    as (r' & Hl' & [->|Hassign]); eauto using dist_assignment_status.
Qed.

Lemma ts_run_status index_key env c rs l r :
  rs !! l = Some r ->
  exists r', (run (Ts.handle index_key env c) rs).1.1 !! l = Some r'
             /\ (status r' = status r \/ status r = pending).
Proof.
  intros Hl.
  destruct (TsFacts.ts_effect_lookup _ _ _ _ _ _
              (TsFacts.ts_handle_effect index_key env c rs) Hl)
    as (r' & Hl' & [->|Hassign]); eauto using ts_assignment_status.
Qed.

Lemma runs_status (handle : Env -> Call -> M Payload) :
  (forall env c rs l r, rs !! l = Some r ->
     exists r', (run (handle env c) rs).1.1 !! l = Some r'
                /\ (status r' = status r \/ status r = pending)) ->
  forall trace rs l r, rs !! l = Some r ->
    exists r', runs handle trace rs !! l = Some r'
               /\ (status r' = status r \/ status r = pending).
Proof.
  intros Hstep trace. induction trace as [|[env c] rest IH]; intros rs l r Hl.
  - simpl. eauto.
  - simpl. destruct (Hstep env c rs l r Hl) as (r1 & Hl1 & H1).
    destruct (IH _ _ _ Hl1) as (r2 & Hl2 & H2).
    exists r2. split; [done|]. destruct H1 as [H1|H1], H2 as [H2|H2]; auto.
    + left. congruence.
    + right. congruence.
Qed.

(** C6. In both builds the status of a stored request only ever moves
    from pending to completed or failed: after any sequence of handler
    runs the request object is still there, with the status it had,
    unless it was pending. Once it is completed or failed, a check_status
    that reaches it returns that status, makes no call on the client and
    leaves the requests as they are. *)
Theorem status_monotonic index_key trace rs l r :
  rs !! l = Some r ->
  (exists r',
      runs Dist.handle trace rs !! l = Some r'
      /\ (status r' = status r \/ status r = pending)
      /\ (terminal (status r') = true ->
          forall env request_id,
            requests_get (runs Dist.handle trace rs) request_id = Some (l, r') ->
            run (Dist.check_status env request_id) (runs Dist.handle trace rs)
            = (runs Dist.handle trace rs, [],
               Normal (StatusReport (id r') (status r') (query r') (model r')
                         (createdAt r')
                         (round_minutes (elapsed_ms env r'))))))
  /\ (exists r',
         runs (Ts.handle index_key) trace rs !! l = Some r'
         /\ (status r' = status r \/ status r = pending)
         /\ (terminal (status r') = true ->
             forall env request_id,
               requests_get (runs (Ts.handle index_key) trace rs) request_id
               = Some (l, r') ->
               run (Ts.check_status env request_id)
                   (runs (Ts.handle index_key) trace rs)
               = (runs (Ts.handle index_key) trace rs, [],
                  Normal (StatusReport (id r') (status r') (query r') (model r')
                            (createdAt r')
                            (round_minutes (elapsed_ms env r')))))).
Proof.
  intros Hl. split.
  - destruct (runs_status Dist.handle dist_run_status trace rs l r Hl)
      as (r' & Hl' & Hst).
    exists r'. repeat split; try done.
    intros Hterm env request_id Hget.
    apply (DistFacts.dist_check_status_settled env request_id _ l r' Hget).
    by destruct (status r').
  - destruct (runs_status (Ts.handle index_key) (ts_run_status index_key)
                trace rs l r Hl) as (r' & Hl' & Hst).
    exists r'. repeat split; try done.
    intros Hterm env request_id Hget.
    apply (TsFacts.ts_check_status_settled env request_id _ l r' Hget).
    by destruct (status r').
Qed.

(** ** get_results: who gets results (both builds) *)

Lemma caught_results prefix status o :
  is_results (caught prefix status o) = true ->
  exists request_id query model report citations citation_count,
    o = Normal (Results request_id query model report citations citation_count).
Proof.
  destruct o as [[]|]; simpl; try discriminate. eauto 10.
Qed.

Lemma dist_get_results_payload env request_id rs payload :
  (run (Dist.get_results env request_id) rs).2 = Normal payload ->
  is_results payload = true ->
  exists l r, requests_get rs request_id = Some (l, r) /\ status r = completed.
Proof.
  intros Hrun Hres.
  destruct (requests_get rs request_id) as [[l r]|] eqn:Hget.
  - exists l, r. split; [done|].
    destruct (decide (status r = completed)) as [|Hne]; [done|].
    rewrite (DistFacts.dist_get_results_not_completed env _ _ l r Hget Hne) in Hrun.
    injection Hrun as <-. discriminate.
  - rewrite (DistFacts.dist_get_results_unknown env _ _ Hget) in Hrun.
    injection Hrun as <-. discriminate.
Qed.

Lemma ts_get_results_payload index_key env request_id rs payload :
  (run (Ts.get_results index_key env request_id) rs).2 = Normal payload ->
  is_results payload = true ->
  exists l r, requests_get rs request_id = Some (l, r) /\ status r = completed.
Proof.
  intros Hrun Hres.
  destruct (requests_get rs request_id) as [[l r]|] eqn:Hget.
  - exists l, r. split; [done|].
    destruct (decide (status r = completed)) as [|Hne]; [done|].
    rewrite (TsFacts.ts_get_results_not_completed index_key env _ _ l r Hget Hne)
      in Hrun.
    injection Hrun as <-. discriminate.
  - rewrite (TsFacts.ts_get_results_unknown index_key env _ _ Hget) in Hrun.
    injection Hrun as <-. discriminate.
Qed.


(** ** create: a failed start stores nothing (both builds) *)

(** C8. In both builds, when the create call on the client is rejected
    the handler returns the error payload that carries the message of the
    rejection, with status ["failed"], and the requests are as they were;
    and whenever create returns an error payload, nothing was stored. *)
Theorem create_failure_stores_nothing env inputs rs :
  (forall message,
      key_present (apiKey env) = true ->
      engine env (create_call inputs) = Rejects message ->
      run (Dist.create env inputs) rs
      = (rs, [create_call inputs],
         Normal (Failure ("Failed to create research request: " +:+ message)
                         "failed"))
      /\ run (Ts.create env inputs) rs
         = (rs, [create_call inputs],
            Normal (Failure ("Failed to create research request: " +:+ message)
                            "failed")))
  /\ (forall error status,
        ((run (Dist.create env inputs) rs).2 = Normal (Failure error status) ->
         (run (Dist.create env inputs) rs).1.1 = rs)
        /\ ((run (Ts.create env inputs) rs).2 = Normal (Failure error status) ->
            (run (Ts.create env inputs) rs).1.1 = rs)).
Proof.
  split.
  - intros message Hkey Hrej. split.
    + by apply DistFacts.dist_create_rejected.
    + by apply TsFacts.ts_create_rejected.
  - intros error status. split.
    + apply DistFacts.dist_create_failure.
    + apply TsFacts.ts_create_failure.
Qed.

(** ** Request ids *)

Lemma pretty_N_go_no_underscore (x : N) (s : string) :
  occurs "_" s = false -> occurs "_" (pretty_N_go x s) = false.
Proof.
  revert s. induction (N.lt_wf_0 x) as [x _ IH]; intros s Hs.
  assert (x = 0 \/ 0 < x)%N as [->|Hpos] by lia.
  - by rewrite pretty_N_go_0.
  - rewrite pretty_N_go_step by done. apply IH.
    + by apply N.div_lt.
    + simpl. rewrite Hs. unfold pretty_N_char. by repeat case_match.
Qed.

Lemma pretty_Z_no_underscore (z : Z) : occurs "_" (pretty z) = false.
Proof.
  assert (forall n : N, occurs "_" (pretty n) = false) as HN.
  { intros n. unfold pretty, pretty_N. case_decide; [done|].
    by apply pretty_N_go_no_underscore. }
  destruct z as [|p|p]; [done|apply (HN (Npos p))|].
  change (pretty (Z.neg p)) with ("-" +:+ pretty (Npos p)).
  simpl. apply (HN (Npos p)).
Qed.

(** Two strings that split at their first underscore are equal only if
    both parts are. *)
Lemma append_underscore_inj (p1 p2 r1 r2 : string) :
  occurs "_" p1 = false -> occurs "_" p2 = false ->
  p1 +:+ String "_" r1 = p2 +:+ String "_" r2 ->
  p1 = p2 /\ r1 = r2.
Proof.
  revert p2. induction p1 as [|a p1 IH]; intros [|b p2]; simpl.
  - intros _ _ [= ->]. done.
  - intros _ Hb [= <- _]. simpl in Hb. discriminate.
  - intros Ha _ [= -> _]. simpl in Ha. discriminate.
  - intros Ha Hb [= -> Heq].
    apply orb_false_iff in Ha as [_ Ha]. apply orb_false_iff in Hb as [_ Hb].
    destruct (IH p2 Ha Hb Heq) as [-> ->]. done.
Qed.

Lemma requestId_inj (env1 env2 : Env) :
  requestId env1 = requestId env2 <->
  now env1 = now env2 /\ rnd env1 = rnd env2.
Proof.
  unfold requestId. split.
  - intros H. simpl in H. injection H as H.
    apply append_underscore_inj in H as [Hp Hr];
      auto using pretty_Z_no_underscore.
    split; [|done]. by apply (inj pretty).
  - by intros [-> ->].
Qed.

(** Only a create rebinds a key, and only the key it generates. *)
Lemma dist_effect_find_last env rs c rs' key :
  Dist.effect env rs c rs' ->
  find_last rs' key <> find_last rs key ->
  exists inputs, c = call_create inputs /\ key = requestId env.
Proof.
  intros Heff Hne.
  destruct Heff as [c|inputs doc Hdoc Hk|c l r r' Hassign Hk Href].
  - done.
  - exists inputs. split; [done|].
    change (rs ++ [?r]) with (requests_set rs r) in Hne.
    rewrite find_last_set in Hne. cbn [id] in Hne.
    destruct (String.eqb_spec (requestId env) key) as [Heq|_]; [by rewrite Heq|].
    done.
  - exfalso. apply Hne.
    apply (find_last_assign rs l r r' key).
    + by eapply DistFacts.dist_assignment_lookup.
    + by destruct Hassign.
Qed.

Lemma ts_effect_find_last env rs c rs' key :
  Ts.effect env rs c rs' ->
  find_last rs' key <> find_last rs key ->
  exists inputs, c = call_create inputs /\ key = requestId env.
Proof.
  intros Heff Hne.
  destruct Heff as [c|inputs doc Hdoc|c l r r' Hassign].
  - done.
  - exists inputs. split; [done|].
    change (rs ++ [?r]) with (requests_set rs r) in Hne.
    rewrite find_last_set in Hne. cbn [id] in Hne.
    destruct (String.eqb_spec (requestId env) key) as [Heq|_]; [by rewrite Heq|].
    done.
  - exfalso. apply Hne.
    apply (find_last_assign rs l r r' key).
    + by eapply TsFacts.ts_assignment_lookup.
    + by destruct Hassign.
Qed.

(** C9, as amended. In both builds the id create returns is not empty:
    it is ["req_"], the clock reading in decimal, ["_"] and the random
    suffix; two runs of create make the same id exactly when they read
    the same millisecond and draw the same suffix. A create that succeeds
    stores its new pending request with an unconditional [set]: whatever
    the id gave before, it gives the new object afterwards. No other run
    changes the object an id gives. *)
Theorem request_ids env env' inputs rs :
  requestId env <> ""
  /\ (requestId env = requestId env' <->
      now env = now env' /\ rnd env = rnd env')
  /\ (forall request_id,
        (run (Dist.create env inputs) rs).2 = Normal (Created request_id) ->
        request_id = requestId env
        /\ exists r,
            (run (Dist.create env inputs) rs).1.1 = requests_set rs r
            /\ id r = request_id /\ status r = pending
            /\ requests_get (run (Dist.create env inputs) rs).1.1 request_id
               = Some (length rs, r))
  /\ (forall request_id,
        (run (Ts.create env inputs) rs).2 = Normal (Created request_id) ->
        request_id = requestId env
        /\ exists r,
            (run (Ts.create env inputs) rs).1.1 = requests_set rs r
            /\ id r = request_id /\ status r = pending
            /\ requests_get (run (Ts.create env inputs) rs).1.1 request_id
               = Some (length rs, r))
  /\ (forall c key,
        find_last (run (Dist.handle env c) rs).1.1 key <> find_last rs key ->
        exists inputs', c = call_create inputs' /\ key = requestId env)
  /\ (forall index_key c key,
        find_last (run (Ts.handle index_key env c) rs).1.1 key
        <> find_last rs key ->
        exists inputs', c = call_create inputs' /\ key = requestId env).
Proof.
  split; [done|]. split; [apply requestId_inj|].
  split; [|split; [|split]];
    [| |intros c key; apply dist_effect_find_last, DistFacts.dist_handle_effect
     |intros index_key c key;
      apply ts_effect_find_last, TsFacts.ts_handle_effect].
  - intros request_id.
    destruct (key_present (apiKey env)) eqn:Hkey;
      [|rewrite DistFacts.dist_create_no_key by done; discriminate].
    destruct (engine env (create_call inputs)) as [doc|message] eqn:Heng;
      [|rewrite (DistFacts.dist_create_rejected _ _ _ message) by done; discriminate].
    assert (doc = JNull \/ doc <> JNull) as [->|Hdoc]
      by (destruct doc; auto).
    + unfold Dist.create, key_present in *. unfold_monad. rewrite Heng.
      split_tests; discriminate.
    + rewrite (DistFacts.dist_create_resolved _ _ _ doc) by done.
      intros [= <-]. split; [done|]. eexists. split; [reflexivity|].
      split; [done|]. split; [done|]. apply (requests_get_set rs).
  - intros request_id.
    destruct (key_present (apiKey env)) eqn:Hkey;
      [|rewrite TsFacts.ts_create_no_key by done; discriminate].
    destruct (engine env (create_call inputs)) as [doc|message] eqn:Heng;
      [|rewrite (TsFacts.ts_create_rejected _ _ _ message) by done; discriminate].
    rewrite (TsFacts.ts_create_resolved _ _ _ doc) by done.
    intros [= <-]. split; [done|]. eexists. split; [reflexivity|].
    split; [done|]. split; [done|]. apply (requests_get_set rs).
Qed.

(** ** Extraction of the citations (both builds) *)







(** ** Reconciliation with the API: dist/server.js does, src/server.ts
    does not *)

(** In dist/server.js a pending request with a usable response id is
    reconciled by one retrieval: the status afterwards is the one the
    retrieved response reports (completed, failed, or still pending on
    any other report and on a rejection), whatever the clock reads. *)
Lemma dist_check_status_follows_api env request_id rs l r ref :
  requests_get rs request_id = Some (l, r) ->
  status r = pending ->
  openaiResponseId r = Some ref ->
  truthy (Some ref) = true ->
  key_present (apiKey env) = true ->
  exists r',
    run (Dist.check_status env request_id) rs
    = (<[l := r']> rs, [responses_retrieve ref], Normal (status_report env r'))
    /\ status r'
       = match engine env (responses_retrieve ref) with
         | Resolves doc =>
             if is_string (get_field doc "status") "completed" then completed
             else if is_string (get_field doc "status") "failed" then failed
                  else pending
         | Rejects _ => pending
         end.
Proof.
  intros Hget Hst Href Htr Hkey.
  exists (Dist.reconciled r (engine env (responses_retrieve ref))). split.
  - by apply DistFacts.dist_check_status_pending.
  - unfold Dist.reconciled.
    destruct (engine env (responses_retrieve ref)) as [doc|]; [|done].
    by repeat case_match.
Qed.

Lemma ts_check_status_no_call env request_id rs :
  (run (Ts.check_status env request_id) rs).1.2 = [].
Proof.
  unfold Ts.check_status. unfold_monad. by split_tests.
Qed.

(** C1, in src/server.ts. check_status never makes a call on the client.
    On a pending request, once more than five minutes (300000 ms)
    separate the clock reading from [createdAt], it sets the request to
    completed, and reports it so. *)
Theorem ts_check_status_completes_by_time env request_id rs :
  (run (Ts.check_status env request_id) rs).1.2 = []
  /\ forall l r,
      requests_get rs request_id = Some (l, r) ->
      status r = pending ->
      300000 < now env - createdAt r ->
      run (Ts.check_status env request_id) rs
      = (<[l := set_status completed r]> rs, [],
         Normal (StatusReport (id r) completed (query r) (model r) (createdAt r)
                   (round_minutes (now env - createdAt r)))).
Proof.
  split; [apply ts_check_status_no_call|].
  intros l r Hget Hst Hlate.
  by rewrite (TsFacts.ts_check_status_late env request_id rs l r).
Qed.

(** In dist/server.js, for a completed request a process can hold whose
    cached response has no truthy [output], get_results makes exactly
    one call on the client, the retrieval by the stored response id; if
    that is rejected the error payload is returned and no request is
    changed. *)
Lemma dist_get_results_retrieves_once key env request_id rs l r :
  reachable Dist.handle key rs ->
  apiKey env = key ->
  requests_get rs request_id = Some (l, r) ->
  status r = completed ->
  truthy (field (response r) "output") = false ->
  exists ref,
    openaiResponseId r = Some ref
    /\ (run (Dist.get_results env request_id) rs).1.2 = [responses_retrieve ref]
    /\ forall message,
        engine env (responses_retrieve ref) = Rejects message ->
        run (Dist.get_results env request_id) rs
        = (rs, [responses_retrieve ref],
           Normal (Failure ("Failed to retrieve results: " +:+ message) "error")).
Proof.
  intros Hreach <- Hget Hst Hout.
  destruct (DistFacts.dist_reachable_well_formed _ _ Hreach) as [Hkey Hwf].
  pose proof (requests_get_Some _ _ _ _ Hget) as (Hl & _ & _).
  destruct (Hwf l r Hl) as (_ & _ & Href).
  assert (truthy (openaiResponseId r) = true) as Htr
    by (apply Href; congruence).
  destruct (openaiResponseId r) as [ref|] eqn:Eref; [|discriminate].
  assert (key_present (apiKey env) = true) as Hk.
  { apply Hkey. intros ->. by rewrite lookup_nil in Hl. }
  exists ref. split; [done|].
  rewrite (DistFacts.dist_get_results_fetch env request_id rs l r ref) by done.
  destruct (engine env (responses_retrieve ref)) as [doc|message]; split;
    try done.
  by intros message' [= ->].
Qed.

Lemma ts_extract_no_output index_key r :
  truthy (field (response r) "output") = false ->
  Ts.extract index_key r = Normal (Failure "No results available" "error").
Proof.
  intros Hout. unfold Ts.extract.
  destruct (field (response r) "output") as [output|]; [|done].
  by rewrite Hout.
Qed.

Lemma ts_get_results_no_call index_key env request_id rs :
  (run (Ts.get_results index_key env request_id) rs).1 = (rs, []).
Proof.
  unfold Ts.get_results. unfold_monad. cbn [requests calls].
  destruct (requests_get rs request_id) as [[l r]|]; [|done].
  destruct (bool_decide (status r = completed)); [|done].
  cbn [negb]. by destruct (Ts.extract index_key r).
Qed.

(** C3, in src/server.ts. get_results never makes a call on the client
    and changes no request. On a completed request whose response has no
    truthy [output] it returns the error payload "No results
    available". *)
Theorem ts_get_results_never_retrieves index_key env request_id rs :
  (run (Ts.get_results index_key env request_id) rs).1 = (rs, [])
  /\ forall l r,
      requests_get rs request_id = Some (l, r) ->
      status r = completed ->
      truthy (field (response r) "output") = false ->
      run (Ts.get_results index_key env request_id) rs
      = (rs, [], Normal (Failure "No results available" "error")).
Proof.
  split; [apply ts_get_results_no_call|].
  intros l r Hget Hst Hout.
  rewrite (TsFacts.ts_get_results_completed index_key env request_id rs l r)
    by done.
  by rewrite ts_extract_no_output.
Qed.

(** ** Malformed responses *)

(** In dist/server.js extraction answers every response that has no
    non-empty [output] array, or whose last message has no non-empty
    [content] array, with an error payload of status ["error"]. *)
Lemma dist_extract_malformed r (response : JsValue) :
  malformed response ->
  exists error, Dist.extract r response = Normal (Failure error "error").
Proof.
  unfold malformed.
  set (output := field response "output").
  set (content := field (last (array_items output)) "content").
  intros H. unfold Dist.extract.
  destruct (truthy response); cbn [negb]; [|eauto].
  fold output. fold content.
  destruct (truthy output) eqn:H1; cbn [negb orb]; [|eauto].
  destruct (isArray output) eqn:H2; cbn [negb orb]; [|eauto].
  case_bool_decide as H3; [eauto|].
  destruct (negb (truthy (last (array_items output)))); cbn [orb]; [eauto|].
  destruct (truthy content) eqn:H4; cbn [negb orb]; [|eauto].
  destruct (isArray content) eqn:H5; cbn [negb orb]; [|eauto].
  destruct (array_items content) as [|mainContent others] eqn:H6;
    cbn [head]; [eauto|].
  destruct H as [H|[H|[H|[H|[H|H]]]]]; try discriminate.
  rewrite H in H3. done.
Qed.


Lemma dist_extract_shape r (response : JsValue) payload :
  Dist.extract r response = Normal payload ->
  (exists error, payload = Failure error "error") \/ is_results payload = true.
Proof.
  unfold Dist.extract, results_payload.
  destruct (negb (truthy response)); [intros [= <-]; eauto|].
  match goal with |- context [if ?c then _ else _] => destruct c end;
    [intros [= <-]; eauto|].
  match goal with |- context [if ?c then _ else _] => destruct c end;
    [intros [= <-]; eauto|].
  match goal with |- context [match ?c with Some _ => _ | None => _ end] =>
    destruct c as [mainContent|] end; [|intros [= <-]; eauto].
  destruct (negb (truthy (Some mainContent))); [intros [= <-]; eauto|].
  destruct (extract_citations mainContent); [|discriminate].
  intros [= <-]. by right.
Qed.

Lemma dist_extract_outcome r (response : JsValue) :
  (exists error,
      caught "Failed to get results: " "error" (Dist.extract r response)
      = Failure error "error")
  \/ (is_results (caught "Failed to get results: " "error"
                    (Dist.extract r response)) = true
      /\ ~ malformed response).
Proof.
  destruct (Dist.extract r response) as [payload|message] eqn:E; simpl;
    [|eauto].
  destruct (dist_extract_shape _ _ _ E) as [[error ->]|Hres]; [eauto|].
  right. split; [done|]. intros Hmal.
  destruct (dist_extract_malformed r response Hmal) as [error He].
  rewrite He in E. injection E as <-. discriminate.
Qed.

(** So does get_results on a completed request, for the response it
    extracts from: the cached one when that has a truthy [output] (or
    when no response id is stored), else the one it retrieves. It returns
    results only when that response is not malformed, and an error
    payload of status ["error"] otherwise. *)
Lemma dist_get_results_malformed env request_id rs l r :
  requests_get rs request_id = Some (l, r) ->
  status r = completed ->
  exists payload,
    (run (Dist.get_results env request_id) rs).2 = Normal payload
    /\ ((exists error, payload = Failure error "error")
        \/ (is_results payload = true
            /\ exists used : JsValue,
                ~ malformed used
                /\ (used = response r
                    \/ exists ref doc,
                        openaiResponseId r = Some ref
                        /\ engine env (responses_retrieve ref) = Resolves doc
                        /\ used = Some doc))).
Proof.
  intros Hget Hst.
  assert (forall r0 (used : JsValue),
             used = response r
             \/ (exists ref doc,
                    openaiResponseId r = Some ref
                    /\ engine env (responses_retrieve ref) = Resolves doc
                    /\ used = Some doc) ->
             exists payload,
               Normal (caught "Failed to get results: " "error"
                         (Dist.extract r0 used)) = Normal payload
               /\ ((exists error, payload = Failure error "error")
                   \/ (is_results payload = true
                       /\ exists used' : JsValue,
                           ~ malformed used'
                           /\ (used' = response r
                               \/ exists ref doc,
                                   openaiResponseId r = Some ref
                                   /\ engine env (responses_retrieve ref)
                                      = Resolves doc
                                   /\ used' = Some doc)))) as Hextract.
  { intros r0 used Hused. eexists. split; [reflexivity|].
    destruct (dist_extract_outcome r0 used) as [Herr|[Hres Hwell]].
    - by left.
    - right. split; [done|]. by exists used. }
  assert (forall error : string,
             exists payload,
               Normal (Failure error "error") = Normal payload
               /\ ((exists error, payload = Failure error "error")
                   \/ (is_results payload = true
                       /\ exists used' : JsValue,
                           ~ malformed used'
                           /\ (used' = response r
                               \/ exists ref doc,
                                   openaiResponseId r = Some ref
                                   /\ engine env (responses_retrieve ref)
                                      = Resolves doc
                                   /\ used' = Some doc)))) as Hfailure.
  { intros error. eexists. split; [reflexivity|]. left. by exists error. }
  destruct (truthy (openaiResponseId r)) eqn:Htr.
  - destruct (openaiResponseId r) as [ref|] eqn:Href; [|discriminate].
    destruct (truthy (field (response r) "output")) eqn:Hout.
    + rewrite (DistFacts.dist_get_results_cached env request_id rs l r Hget Hst)
        by (by right).
      apply Hextract. by left.
    + destruct (key_present (apiKey env)) eqn:Hkey.
      * rewrite (DistFacts.dist_get_results_fetch env request_id rs l r ref
                   Hget Hst Href Htr Hout Hkey).
        destruct (engine env (responses_retrieve ref)) as [doc|message] eqn:E.
        -- apply Hextract. right. by exists ref, doc.
        -- apply Hfailure.
      * rewrite (DistFacts.dist_get_results_no_key env request_id rs l r ref
                   Hget Hst Href Htr Hout Hkey).
        apply Hfailure.
  - rewrite (DistFacts.dist_get_results_cached env request_id rs l r Hget Hst)
      by (by left).
    apply Hextract. by left.
Qed.

(** src/server.ts answers with an error payload of status ["error"] when
    [output] is missing or falsy, when it is an empty array, and when it
    is an array whose last message has a missing, falsy or empty
    [content]. *)
Lemma ts_extract_missing index_key r :
  truthy (field (response r) "output") = false
  \/ (exists items,
        field (response r) "output" = Some (JArray items)
        /\ (truthy (field (last items) "content") = false
            \/ field (last items) "content" = Some (JArray []))) ->
  exists error, Ts.extract index_key r = Normal (Failure error "error").
Proof.
  intros [Hout|(items & Hout & Hcontent)]; [rewrite ts_extract_no_output; eauto|].
  unfold Ts.extract. rewrite Hout. cbn [truthy negb Ts.last_element].
  destruct Hcontent as [Hcontent| ->]; [|cbn; eauto].
  destruct (field (last items) "content") as [[|b|q|s|content|fields]|];
    cbn in Hcontent |- *; try discriminate; eauto.
  destruct s; [eauto|discriminate].
Qed.

(** dist/server.js on a response whose last message has a string for
    [content]: the error payload. *)
Lemma dist_get_results_string_content env :
  run (Dist.get_results env "req_1000_abc")
      [set_status completed
         (set_response (Some example_string_response) example_dist_request)]
  = ([set_status completed
        (set_response (Some example_string_response) example_dist_request)],
     [],
     Normal (Failure "Unable to extract content from last message" "error")).
Proof. reflexivity. Qed.

(** C5, in src/server.ts. After a create that the API answers by
    [{id: "op_2", output: [{content: "hi"}]}] and a check_status more than
    five minutes later, the request is completed and the last message of
    its response has a string where the content list should be;
    get_results then returns a results payload: the report is the string
    rendering of ["h"], the first character, and there is no citation. *)
Theorem ts_get_results_string_content index_key :
  runs (Ts.handle index_key)
       [(example_string_env 1000, call_create example_inputs);
        (example_string_env 301001, call_check_status "req_1000_abc")] []
  = [example_string_request]
  /\ malformed (response example_string_request)
  /\ run (Ts.get_results index_key (example_string_env 400000) "req_1000_abc")
         [example_string_request]
     = ([example_string_request], [],
        Normal (Results "req_1000_abc" "ping" o4_mini_deep_research
                  (report_String (JString "h")) [] 0)).
Proof.
  split; [reflexivity|]. split; [|reflexivity].
  unfold malformed. simpl. tauto.
Qed.

(** ** The theorems at the example data *)

Lemma example_dist_created_reachable :
  reachable Dist.handle example_key example_dist_created.
Proof. apply (reachable_run _ _ []); [apply reachable_start|reflexivity]. Qed.

Lemma example_dist_checked_reachable doc :
  reachable Dist.handle example_key (example_dist_checked doc).
Proof. apply reachable_run; [apply example_dist_created_reachable|reflexivity]. Qed.

Lemma example_dist_fetched_reachable :
  reachable Dist.handle example_key example_dist_fetched.
Proof. apply reachable_run; [apply example_dist_checked_reachable|reflexivity]. Qed.

Lemma example_ts_created_reachable :
  reachable (Ts.handle example_index_key) example_key example_ts_created.
Proof. apply (reachable_run _ _ []); [apply reachable_start|reflexivity]. Qed.

Lemma example_ts_checked_reachable :
  reachable (Ts.handle example_index_key) example_key example_ts_checked.
Proof. apply reachable_run; [apply example_ts_created_reachable|reflexivity]. Qed.

(** C1 at the request created at time 1000 and checked at time 301001. *)
Lemma ts_check_status_completes_by_time_witness :
  requests_get example_ts_created "req_1000_abc" = Some (0%nat, example_ts_request)
  /\ status example_ts_request = pending
  /\ 300000 < 301001 - createdAt example_ts_request
  /\ run (Ts.check_status (example_env (Rejects "unused") 301001) "req_1000_abc")
         example_ts_created
     = ([set_status completed example_ts_request], [],
        Normal (StatusReport "req_1000_abc" completed "ping"
                  o4_mini_deep_research 1000 5)).
Proof.
  split; [reflexivity|]. split; [reflexivity|]. split; [reflexivity|].
  destruct (ts_check_status_completes_by_time
              (example_env (Rejects "unused") 301001) "req_1000_abc"
              example_ts_created) as [_ Hlate].
  exact (Hlate 0%nat example_ts_request eq_refl eq_refl eq_refl).
Defined.

(** C3 at that request once completed; its response, the one of the
    create call, has no [output]. *)
Lemma ts_get_results_never_retrieves_witness :
  requests_get example_ts_checked "req_1000_abc"
  = Some (0%nat, set_status completed example_ts_request)
  /\ status (set_status completed example_ts_request) = completed
  /\ truthy (field (response (set_status completed example_ts_request)) "output")
     = false
  /\ run (Ts.get_results example_index_key
            (example_env (Resolves example_response) 400000) "req_1000_abc")
         example_ts_checked
     = (example_ts_checked, [], Normal (Failure "No results available" "error")).
Proof.
  split; [reflexivity|]. split; [reflexivity|]. split; [reflexivity|].
  destruct (ts_get_results_never_retrieves example_index_key
              (example_env (Resolves example_response) 400000) "req_1000_abc"
              example_ts_checked) as [_ Hmissing].
  exact (Hmissing 0%nat (set_status completed example_ts_request)
           eq_refl eq_refl eq_refl).
Defined.

(** C10 at the requests src/server.ts holds after the create and the
    late check_status. *)
Lemma never_failed_witness :
  reachable (Ts.handle example_index_key) example_key example_ts_checked
  /\ (forall l r, example_ts_checked !! l = Some r ->
        (status r = pending \/ status r = completed) /\ error r = None)
  /\ (forall env c l r r',
        example_ts_checked !! l = Some r ->
        (run (Ts.handle example_index_key env c) example_ts_checked).1.1 !! l
        = Some r' ->
        status r' <> status r ->
        status r = pending /\ status r' = completed /\
        300000 < now env - createdAt r /\
        exists request_id,
          c = call_check_status request_id /\
          requests_get example_ts_checked request_id = Some (l, r)).
Proof.
  split; [exact example_ts_checked_reachable|].
  exact (TsFacts.never_failed example_index_key example_key example_ts_checked
           example_ts_checked_reachable).
Defined.

(** C2, as amended, at the requests dist/server.js holds after the
    response without [output] was cached. *)
Lemma cached_result_witness :
  reachable Dist.handle example_key (example_dist_checked example_bare_response)
  /\ (forall l r,
        example_dist_checked example_bare_response !! l = Some r ->
        (is_Some (response r) <-> status r = completed))
  /\ (forall env c l r r',
        example_dist_checked example_bare_response !! l = Some r ->
        (run (Dist.handle env c)
             (example_dist_checked example_bare_response)).1.1 !! l = Some r' ->
        response r' <> response r ->
        exists request_id ref doc,
          requests_get (example_dist_checked example_bare_response) request_id
          = Some (l, r) /\
          openaiResponseId r = Some ref /\
          engine env (responses_retrieve ref) = Resolves doc /\
          response r' = Some doc /\ status r' = completed /\
          ((c = call_check_status request_id /\
            status r = pending /\ response r = undefined /\
            is_string (get_field doc "status") "completed" = true)
           \/ (c = call_get_results request_id /\
               status r = completed /\
               truthy (field (response r) "output") = false))).
Proof.
  split; [exact (example_dist_checked_reachable example_bare_response)|].
  exact (DistFacts.cached_result example_key
           (example_dist_checked example_bare_response)
           (example_dist_checked_reachable example_bare_response)).
Defined.

(** C2 as stated fails in dist/server.js: check_status caches the
    response the API reports completed, here one without [output], and
    the next get_results replaces it by the one it retrieves; the cached
    response of the one request is populated twice. *)
Lemma cache_populated_twice :
  reachable Dist.handle example_key example_dist_fetched
  /\ example_dist_created = [example_dist_request]
  /\ example_dist_checked example_bare_response
     = [example_dist_completed example_bare_response]
  /\ example_dist_fetched = [example_dist_completed example_response]
  /\ response (example_dist_completed example_bare_response)
     <> response (example_dist_completed example_response).
Proof.
  split; [exact example_dist_fetched_reachable|].
  repeat split. discriminate.
Qed.


(** The citations of that response, as the spec's scenario has them. *)
Lemma example_citations :
  (run (Dist.get_results (example_env (Rejects "unused") 5000) "req_1000_abc")
       (example_dist_checked example_response)).2
  = Normal (Results "req_1000_abc" "ping" o4_mini_deep_research
              (report_text (JString "pong"))
              [ mkCitation 1 (JString "Src") (Some (JString "http://x")) undefined;
                mkCitation 2 (JString "Other") (Some (JString "http://y"))
                           undefined;
                mkCitation 3 (JString "Unknown") undefined
                           (Some (JString "quoted")) ]
              3).
Proof. reflexivity. Qed.

(** C6 at a completed request of dist/server.js, over a check_status and
    a get_results. *)
Lemma status_monotonic_witness :
  example_dist_checked example_response !! 0%nat
  = Some (example_dist_completed example_response)
  /\ (exists r',
        runs Dist.handle
             [(example_env (Rejects "down") 9000, call_check_status "req_1000_abc");
              (example_env (Rejects "down") 9500, call_get_results "req_1000_abc")]
             (example_dist_checked example_response) !! 0%nat = Some r'
        /\ status r' = completed)
  /\ (exists r',
        runs (Ts.handle example_index_key)
             [(example_env (Rejects "down") 9000, call_check_status "req_1000_abc");
              (example_env (Rejects "down") 9500, call_get_results "req_1000_abc")]
             (example_dist_checked example_response) !! 0%nat = Some r'
        /\ status r' = completed).
Proof.
  split; [reflexivity|].
  destruct (status_monotonic example_index_key
              [(example_env (Rejects "down") 9000,
                call_check_status "req_1000_abc");
               (example_env (Rejects "down") 9500,
                call_get_results "req_1000_abc")]
              (example_dist_checked example_response) 0%nat
              (example_dist_completed example_response) eq_refl)
    as [(r1 & Hl1 & Hst1 & _) (r2 & Hl2 & Hst2 & _)].
  split.
  - exists r1. split; [exact Hl1|].
    destruct Hst1 as [Hst1|Hst1]; [exact Hst1|discriminate Hst1].
  - exists r2. split; [exact Hl2|].
    destruct Hst2 as [Hst2|Hst2]; [exact Hst2|discriminate Hst2].
Defined.



(** C8 at a client that rejects the create call. *)
Lemma create_failure_stores_nothing_witness :
  key_present (apiKey example_rejecting_env) = true
  /\ engine example_rejecting_env (create_call example_inputs)
     = Rejects "401 Incorrect API key provided"
  /\ run (Dist.create example_rejecting_env example_inputs) example_dist_created
     = (example_dist_created, [create_call example_inputs],
        Normal (Failure ("Failed to create research request: "
                         +:+ "401 Incorrect API key provided") "failed"))
  /\ run (Ts.create example_rejecting_env example_inputs) example_dist_created
     = (example_dist_created, [create_call example_inputs],
        Normal (Failure ("Failed to create research request: "
                         +:+ "401 Incorrect API key provided") "failed")).
Proof.
  split; [reflexivity|]. split; [reflexivity|].
  destruct (create_failure_stores_nothing example_rejecting_env example_inputs
              example_dist_created) as [Hrejected _].
  exact (Hrejected "401 Incorrect API key provided" eq_refl eq_refl).
Defined.

(** C9, as amended, at the first create of the example. *)
Lemma request_ids_witness :
  (run (Dist.create (example_env (Rejects "unused") 1000) example_inputs) []).2
  = Normal (Created "req_1000_abc")
  /\ "req_1000_abc" = requestId (example_env (Rejects "unused") 1000)
  /\ exists r,
      (run (Dist.create (example_env (Rejects "unused") 1000) example_inputs)
           []).1.1 = requests_set [] r
      /\ id r = "req_1000_abc" /\ status r = pending
      /\ requests_get
           (run (Dist.create (example_env (Rejects "unused") 1000)
                   example_inputs) []).1.1 "req_1000_abc"
         = Some (length (@nil ResearchRequest), r).
Proof.
  split; [reflexivity|].
  destruct (request_ids (example_env (Rejects "unused") 1000)
              (example_env (Rejects "unused") 1000) example_inputs [])
    as (_ & _ & Hdist & _).
  exact (Hdist "req_1000_abc" eq_refl).
Defined.

(** C9 as stated fails: two creates that read the same millisecond and
    draw the same suffix return the same id; both objects exist, and the
    id, which gave the first, gives the second after the second [set]. *)
Lemma request_id_reused :
  (run (Ts.create (example_env (Rejects "unused") 1000) example_inputs) []).2
  = Normal (Created "req_1000_abc")
  /\ (run (Ts.create (example_env (Rejects "unused") 1000) example_second_inputs)
          example_ts_created).2
     = Normal (Created "req_1000_abc")
  /\ (query <$> example_ts_created_twice !! 0%nat) = Some "ping"
  /\ (query <$> example_ts_created_twice !! 1%nat) = Some "pong"
  /\ (id <$> example_ts_created_twice !! 0%nat) = Some "req_1000_abc"
  /\ (id <$> example_ts_created_twice !! 1%nat) = Some "req_1000_abc"
  /\ (fst <$> requests_get example_ts_created "req_1000_abc") = Some 0%nat
  /\ (fst <$> requests_get example_ts_created_twice "req_1000_abc") = Some 1%nat
  /\ (fst <$> requests_get example_dist_created "req_1000_abc") = Some 0%nat
  /\ (fst <$> requests_get example_dist_created_twice "req_1000_abc")
     = Some 1%nat.
Proof. repeat split. Qed.

(** * Further properties of the handlers *)

(** ** Lookups, again *)

(** [researchRequests.get] finds nothing exactly when no stored request
    carries the id. *)
Lemma find_last_None_iff (rs : Requests) (key : string) :
  find_last rs key = None <-> Forall (fun r => id r <> key) rs.
Proof.
  induction rs as [|r rest IH]; simpl; [split; [constructor|done]|].
  destruct (find_last rest key) as [i|] eqn:E.
  - split; [done|]. intros H. apply Forall_cons in H as [_ H].
    apply IH in H. discriminate.
  - destruct (String.eqb_spec (id r) key) as [Heq|Hne].
    + split; [done|]. intros H. by apply Forall_cons in H as [H _].
    + split; [|done]. intros _. constructor; [done|]. by apply IH.
Qed.

Lemma requests_get_None_iff (rs : Requests) (key : string) :
  requests_get rs key = None <-> Forall (fun r => id r <> key) rs.
Proof.
  rewrite <- find_last_None_iff. split; [apply requests_get_None|].
  intros H. unfold requests_get. by rewrite H.
Qed.

(** An assignment that keeps the id keeps the lookup, now giving the
    object as assigned. *)
Lemma requests_get_assign (rs : Requests) (key : string) (l : nat)
      (r r' : ResearchRequest) :
  requests_get rs key = Some (l, r) -> id r' = id r ->
  requests_get (<[l := r']> rs) key = Some (l, r').
Proof.
  intros Hget Hid. apply requests_get_Some in Hget as (Hl & _ & Hfind).
  unfold requests_get. rewrite (find_last_assign rs l r r' key Hl Hid), Hfind.
  rewrite list_lookup_insert_eq by (by eapply lookup_lt_Some). done.
Qed.

Lemma requests_get_assign_other (rs : Requests) (key : string) (l l0 : nat)
      (r r0 r0' : ResearchRequest) :
  requests_get rs key = Some (l, r) -> rs !! l0 = Some r0 -> id r0' = id r0 ->
  l <> l0 ->
  requests_get (<[l0 := r0']> rs) key = Some (l, r).
Proof.
  intros Hget Hl0 Hid Hne. apply requests_get_Some in Hget as (Hl & _ & Hfind).
  unfold requests_get. rewrite (find_last_assign rs l0 r0 r0' key Hl0 Hid), Hfind.
  by rewrite list_lookup_insert_ne, Hl.
Qed.

(** ** Unknown ids, missing key *)

(** X1. In both builds check_status on an id that no stored request
    carries returns the not_found error payload, makes no call on the
    client and changes no request. *)
Theorem check_status_unknown_id env request_id rs :
  Forall (fun r => id r <> request_id) rs ->
  run (Dist.check_status env request_id) rs
  = (rs, [], Normal (Failure ("Request ID " +:+ request_id +:+ " not found")
                             "not_found"))
  /\ run (Ts.check_status env request_id) rs
     = (rs, [], Normal (Failure ("Request ID " +:+ request_id +:+ " not found")
                                "not_found")).
Proof.
  intros Hnone. apply requests_get_None_iff in Hnone. split.
  - by apply DistFacts.dist_check_status_unknown.
  - by apply TsFacts.ts_check_status_unknown.
Qed.

Lemma dist_no_key env c rs :
  key_present (apiKey env) = false ->
  (run (Dist.handle env c) rs).1 = (rs, []).
Proof.
  intros Hkey. unfold key_present in Hkey.
  destruct c as [inputs|request_id|request_id]; simpl.
  - unfold Dist.create. unfold_monad. by split_tests.
  - unfold Dist.check_status, Dist.reconcile. unfold_monad. by split_tests.
  - unfold Dist.get_results, Dist.retrieve_if_missing. unfold_monad.
    cbn [requests calls].
    destruct (requests_get rs request_id) as [[l r]|]; [|done].
    destruct (bool_decide (status r = completed)); [|done]. cbn [negb].
    destruct (openaiResponseId r) as [ref|].
    + destruct (truthy (Some ref) && _).
      * destruct (apiKey env) as [k|]; [destruct (String.eqb k "")|];
          try discriminate; done || (cbn; by destruct (Dist.extract _ _)).
      * cbn. by destruct (Dist.extract _ _).
    + cbn. by destruct (Dist.extract _ _).
Qed.

Lemma ts_no_key index_key env c rs :
  key_present (apiKey env) = false ->
  (run (Ts.handle index_key env c) rs).1.2 = []
  /\ forall inputs, c = call_create inputs ->
       (run (Ts.handle index_key env c) rs).1.1 = rs.
Proof.
  intros Hkey. split.
  - destruct c as [inputs|request_id|request_id]; simpl.
    + by rewrite TsFacts.ts_create_no_key.
    + apply ts_check_status_no_call.
    + by rewrite ts_get_results_no_call.
  - intros inputs ->. simpl. by rewrite TsFacts.ts_create_no_key.
Qed.

(** X6. Without an API key (the variable unset or empty) create, in both
    builds, returns the error payload that says the key is required,
    makes no call and stores nothing; and in dist/server.js no handler
    run makes a call or changes a request. *)
Theorem no_key_no_call index_key env rs :
  key_present (apiKey env) = false ->
  (forall inputs,
      run (Dist.create env inputs) rs
      = (rs, [],
         Normal (Failure ("Failed to create research request: "
                          +:+ "OPENAI_API_KEY environment variable is required")
                         "failed"))
      /\ run (Ts.create env inputs) rs
         = (rs, [],
            Normal (Failure ("Failed to create research request: "
                             +:+ "OPENAI_API_KEY environment variable is required")
                            "failed")))
  /\ (forall c, (run (Dist.handle env c) rs).1 = (rs, []))
  /\ (forall c, (run (Ts.handle index_key env c) rs).1.2 = []).
Proof.
  intros Hkey. split; [|split].
  - intros inputs. split.
    + by apply DistFacts.dist_create_no_key.
    + by apply TsFacts.ts_create_no_key.
  - intros c. by apply dist_no_key.
  - intros c. by apply ts_no_key.
Qed.

(** ** The payload of each tool *)

Lemma dist_create_payload env inputs rs :
  (run (Dist.create env inputs) rs).2 = Normal (Created (requestId env))
  \/ exists message,
      (run (Dist.create env inputs) rs).2
      = Normal (Failure ("Failed to create research request: " +:+ message)
                        "failed").
Proof.
  unfold Dist.create. unfold_monad. split_tests; eauto.
Qed.

Lemma ts_create_payload env inputs rs :
  (run (Ts.create env inputs) rs).2 = Normal (Created (requestId env))
  \/ exists message,
      (run (Ts.create env inputs) rs).2
      = Normal (Failure ("Failed to create research request: " +:+ message)
                        "failed").
Proof.
  unfold Ts.create. unfold_monad. split_tests; eauto.
Qed.

(** check_status answers a stored request with a status report of that
    request as the run leaves it; the outer [catch] is never entered. *)
Lemma dist_check_status_payload env request_id rs l r :
  requests_get rs request_id = Some (l, r) ->
  exists r',
    (run (Dist.check_status env request_id) rs).1.1 !! l = Some r'
    /\ (run (Dist.check_status env request_id) rs).2
       = Normal (status_report env r').
Proof.
  intros Hget. pose proof (requests_get_Some _ _ _ _ Hget) as (Hl & _ & _).
  assert (l < length rs)%nat as Hlt by (by eapply lookup_lt_Some).
  unfold Dist.check_status, Dist.reconcile. unfold_monad.
  cbn [requests calls]. rewrite Hget.
  split_tests; eexists; (split; [|reflexivity]);
    first [ exact Hl | by apply list_lookup_insert_eq ].
Qed.

Lemma ts_check_status_payload env request_id rs l r :
  requests_get rs request_id = Some (l, r) ->
  exists r',
    (run (Ts.check_status env request_id) rs).1.1 !! l = Some r'
    /\ (run (Ts.check_status env request_id) rs).2
       = Normal (status_report env r').
Proof.
  intros Hget. pose proof (requests_get_Some _ _ _ _ Hget) as (Hl & _ & _).
  assert (l < length rs)%nat as Hlt by (by eapply lookup_lt_Some).
  unfold Ts.check_status. unfold_monad.
  cbn [requests calls]. rewrite Hget.
  split_tests; eexists; (split; [|reflexivity]);
    first [ exact Hl | by apply list_lookup_insert_eq ].
Qed.

(** ** What a results payload holds *)

Lemma forEach_push_Normal (annotations : list Json) (index : nat)
      (acc citations : list Citation) :
  forEach_push annotations index acc = Normal citations ->
  citations = acc ++ imap (fun i => citation_of (index + i)) annotations.
Proof.
  revert index acc.
  induction annotations as [|a rest IH]; intros index acc; simpl.
  - intros [= <-]. by rewrite app_nil_r.
  - intros H.
    assert (forEach_push rest (S index) (acc ++ [citation_of index a])
            = Normal citations) as H' by (destruct a; done).
    apply IH in H'. rewrite H', <- app_assoc. simpl.
    rewrite Nat.add_0_r. do 2 f_equal.
    apply imap_ext. intros i x _. simpl. f_equal. lia.
Qed.

Lemma extract_citations_Normal (mainContent : Json) (citations : list Citation) :
  extract_citations mainContent = Normal citations ->
  exists annotations, citations = imap citation_of annotations.
Proof.
  unfold extract_citations.
  destruct (truthy (get_field mainContent "annotations"));
    [|intros [= <-]; by exists []].
  destruct (get_field mainContent "annotations") as [[| | | |items|]|];
    try discriminate.
  intros H. apply forEach_push_Normal in H. exists items. by rewrite H.
Qed.

Lemma citation_of_title (index : nat) (annotation : Json) :
  truthy (Some (title (citation_of index annotation))) = true.
Proof.
  unfold citation_of. cbn [title].
  destruct (truthy (get_field annotation "title")) eqn:E; [|done].
  by destruct (get_field annotation "title").
Qed.

Lemma reportText_truthy (mainContent : Json) :
  truthy (Some mainContent) = true ->
  match reportText mainContent with
  | report_text t => truthy (Some t) = true
  | report_String block => block = mainContent
  end.
Proof.
  intros Hmain. unfold reportText.
  destruct (truthy (get_field mainContent "text")) eqn:E; [|done].
  by destruct (get_field mainContent "text").
Qed.

(** What [results_payload] returns, when it returns. *)
Lemma results_payload_Normal r mainContent payload :
  results_payload r mainContent = Normal payload ->
  exists annotations,
    payload = Results (id r) (query r) (model r) (reportText mainContent)
                (imap citation_of annotations) (length annotations).
Proof.
  unfold results_payload.
  destruct (extract_citations mainContent) as [citations|] eqn:E; [|done].
  apply extract_citations_Normal in E as [annotations ->].
  intros [= <-]. exists annotations. by rewrite length_imap.
Qed.

Lemma dist_extract_Results r (v : JsValue) payload :
  Dist.extract r v = Normal payload ->
  is_results payload = true ->
  exists mainContent annotations,
    truthy (Some mainContent) = true
    /\ payload = Results (id r) (query r) (model r) (reportText mainContent)
                   (imap citation_of annotations) (length annotations).
Proof.
  unfold Dist.extract.
  destruct (negb (truthy v)); [by intros [= <-]|].
  match goal with |- context [if ?c then _ else _] => destruct c end;
    [by intros [= <-]|].
  match goal with |- context [if ?c then _ else _] => destruct c end;
    [by intros [= <-]|].
  match goal with |- context [match ?c with Some _ => _ | None => _ end] =>
    destruct c as [mainContent|] end; [|by intros [= <-]].
  destruct (truthy (Some mainContent)) eqn:Hmain; cbn [negb];
    [|by intros [= <-]].
  intros H _. apply results_payload_Normal in H as [annotations ->].
  by exists mainContent, annotations.
Qed.

Lemma ts_extract_Results index_key r payload :
  Ts.extract index_key r = Normal payload ->
  is_results payload = true ->
  exists mainContent annotations,
    truthy (Some mainContent) = true
    /\ payload = Results (id r) (query r) (model r) (reportText mainContent)
                   (imap citation_of annotations) (length annotations).
Proof.
  unfold Ts.extract.
  destruct (field (response r) "output") as [output|]; [|by intros [= <-]].
  destruct (negb (truthy (Some output))); [by intros [= <-]|].
  match goal with |- context [match ?c with Some _ => _ | None => _ end] =>
    destruct c as [mainContent|] end; [|by intros [= <-]].
  destruct (truthy (Some mainContent)) eqn:Hmain; cbn [negb];
    [|by intros [= <-]].
  intros H _. apply results_payload_Normal in H as [annotations ->].
  by exists mainContent, annotations.
Qed.

(** What get_results of dist/server.js answers a completed request with:
    an error payload of its own, or what extraction gives for the
    request with the response in hand. *)
Lemma dist_get_results_extracts env request_id rs l r :
  requests_get rs request_id = Some (l, r) ->
  status r = completed ->
  (exists error,
      (run (Dist.get_results env request_id) rs).2
      = Normal (Failure error "error"))
  \/ (exists r0 (v : JsValue),
        id r0 = id r /\ query r0 = query r /\ model r0 = model r
        /\ (run (Dist.get_results env request_id) rs).2
           = Normal (caught "Failed to get results: " "error"
                       (Dist.extract r0 v))).
Proof.
  intros Hget Hst.
  destruct (truthy (openaiResponseId r)) eqn:Htr.
  - destruct (openaiResponseId r) as [ref|] eqn:Href; [|discriminate].
    destruct (truthy (field (response r) "output")) eqn:Hout.
    + rewrite (DistFacts.dist_get_results_cached env request_id rs l r Hget Hst)
        by (by right).
      right. by exists r, (response r).
    + destruct (key_present (apiKey env)) eqn:Hkey.
      * rewrite (DistFacts.dist_get_results_fetch env request_id rs l r ref
                   Hget Hst Href Htr Hout Hkey).
        destruct (engine env (responses_retrieve ref)) as [doc|message].
        -- right. by exists (set_response (Some doc) r), (Some doc).
        -- left. by eexists.
      * rewrite (DistFacts.dist_get_results_no_key env request_id rs l r ref
                   Hget Hst Href Htr Hout Hkey).
        left. by eexists.
  - rewrite (DistFacts.dist_get_results_cached env request_id rs l r Hget Hst)
      by (by left).
    right. by exists r, (response r).
Qed.

Lemma caught_Results prefix status o payload :
  caught prefix status o = payload -> is_results payload = true ->
  o = Normal payload.
Proof. destruct o; simpl; intros <-; [done|discriminate]. Qed.

Lemma dist_get_results_Results env request_id rs payload :
  (run (Dist.get_results env request_id) rs).2 = Normal payload ->
  is_results payload = true ->
  exists l r mainContent annotations,
    requests_get rs request_id = Some (l, r)
    /\ truthy (Some mainContent) = true
    /\ payload = Results request_id (query r) (model r) (reportText mainContent)
                   (imap citation_of annotations) (length annotations).
Proof.
  intros Hrun Hres.
  destruct (dist_get_results_payload env request_id rs payload Hrun Hres)
    as (l & r & Hget & Hst).
  pose proof (requests_get_Some _ _ _ _ Hget) as (_ & Hid & _).
  destruct (dist_get_results_extracts env request_id rs l r Hget Hst)
    as [[error He]|(r0 & v & Hid0 & Hq & Hm & He)];
    rewrite He in Hrun; injection Hrun as Hrun.
  - subst payload. discriminate.
  - apply caught_Results in Hrun; [|done].
    destruct (dist_extract_Results r0 v payload Hrun Hres)
      as (mainContent & annotations & Hmain & ->).
    exists l, r, mainContent, annotations.
    by rewrite Hid0, Hq, Hm, Hid.
Qed.

Lemma ts_get_results_Results index_key env request_id rs payload :
  (run (Ts.get_results index_key env request_id) rs).2 = Normal payload ->
  is_results payload = true ->
  exists l r mainContent annotations,
    requests_get rs request_id = Some (l, r)
    /\ truthy (Some mainContent) = true
    /\ payload = Results request_id (query r) (model r) (reportText mainContent)
                   (imap citation_of annotations) (length annotations).
Proof.
  intros Hrun Hres.
  destruct (ts_get_results_payload index_key env request_id rs payload Hrun Hres)
    as (l & r & Hget & Hst).
  pose proof (requests_get_Some _ _ _ _ Hget) as (_ & Hid & _).
  rewrite (TsFacts.ts_get_results_completed index_key env request_id rs l r
             Hget Hst) in Hrun.
  injection Hrun as Hrun. apply caught_Results in Hrun; [|done].
  destruct (ts_extract_Results index_key r payload Hrun Hres)
    as (mainContent & annotations & Hmain & ->).
  exists l, r, mainContent, annotations. by rewrite Hid.
Qed.

(** X9. In both builds every results payload get_results returns names
    the id asked for and the query and model of the request stored under
    it; its [citation_count] is the number of its citations, the citation
    at index [i] has id [i + 1] and a truthy [title], and its report is a
    truthy text or the rendering of a truthy content block. *)
Theorem results_payload_consistent index_key env request_id rs
        rid q m report citations count :
  (run (Dist.get_results env request_id) rs).2
  = Normal (Results rid q m report citations count)
  \/ (run (Ts.get_results index_key env request_id) rs).2
     = Normal (Results rid q m report citations count) ->
  rid = request_id
  /\ (exists l r,
        requests_get rs request_id = Some (l, r)
        /\ q = query r /\ m = model r)
  /\ count = length citations
  /\ (forall i citation,
        citations !! i = Some citation ->
        citation_id citation = (i + 1)%nat
        /\ truthy (Some (title citation)) = true)
  /\ match report with
     | report_text t => truthy (Some t) = true
     | report_String block => truthy (Some block) = true
     end.
Proof.
  intros Hrun.
  assert (exists l r mainContent annotations,
             requests_get rs request_id = Some (l, r)
             /\ truthy (Some mainContent) = true
             /\ Results rid q m report citations count
                = Results request_id (query r) (model r)
                    (reportText mainContent)
                    (imap citation_of annotations) (length annotations))
    as (l & r & mainContent & annotations & Hget & Hmain & Heq).
  { destruct Hrun as [Hrun|Hrun].
    - by apply (dist_get_results_Results env request_id rs).
    - by apply (ts_get_results_Results index_key env request_id rs). }
  injection Heq as -> -> -> -> -> ->.
  split; [done|]. split; [by exists l, r|]. split; [by rewrite length_imap|].
  split.
  - intros i citation Hi. rewrite list_lookup_imap in Hi.
    destruct (annotations !! i) as [annotation|]; [|done].
    injection Hi as <-. split; [done|]. apply citation_of_title.
  - pose proof (reportText_truthy mainContent Hmain) as Hrep.
    destruct (reportText mainContent); [done|]. by subst.
Qed.

(** ** Fields that never change *)

Lemma same_fields_refl r : same_fields r r.
Proof. by repeat split. Qed.

Lemma same_fields_trans r1 r2 r3 :
  same_fields r1 r2 -> same_fields r2 r3 -> same_fields r1 r3.
Proof.
  intros (?&?&?&?&?&?) (?&?&?&?&?&?). repeat split; congruence.
Qed.

Lemma dist_run_same_fields env c rs l r :
  rs !! l = Some r ->
  exists r', (run (Dist.handle env c) rs).1.1 !! l = Some r' /\ same_fields r r'.
Proof.
  intros Hl.
  destruct (DistFacts.dist_effect_lookup _ _ _ _ _ _
              (DistFacts.dist_handle_effect env c rs) Hl)
    as (r' & Hl' & [->|Hassign]).
  - eauto using same_fields_refl.
  - exists r'. split; [done|]. by destruct Hassign.
Qed.

Lemma ts_run_same_fields index_key env c rs l r :
  rs !! l = Some r ->
  exists r', (run (Ts.handle index_key env c) rs).1.1 !! l = Some r'
             /\ same_fields r r' /\ response r' = response r.
Proof.
  intros Hl.
  destruct (TsFacts.ts_effect_lookup _ _ _ _ _ _
              (TsFacts.ts_handle_effect index_key env c rs) Hl)
    as (r' & Hl' & [->|Hassign]).
  - eauto using same_fields_refl.
  - exists r'. split; [done|]. by destruct Hassign.
Qed.

(** X4. In both builds no sequence of handler runs changes the id, the
    query, the system message, the model, the creation time or the
    stored response id of a request object; in src/server.ts its
    response never changes either. *)
Theorem fields_never_change index_key trace rs l r :
  rs !! l = Some r ->
  (exists r',
      runs Dist.handle trace rs !! l = Some r'
      /\ id r' = id r /\ query r' = query r
      /\ systemMessage r' = systemMessage r /\ model r' = model r
      /\ createdAt r' = createdAt r
      /\ openaiResponseId r' = openaiResponseId r)
  /\ (exists r',
         runs (Ts.handle index_key) trace rs !! l = Some r'
         /\ id r' = id r /\ query r' = query r
         /\ systemMessage r' = systemMessage r /\ model r' = model r
         /\ createdAt r' = createdAt r
         /\ response r' = response r).
Proof.
  intros Hl. split.
  - revert rs r Hl. induction trace as [|[env c] rest IH]; intros rs r Hl.
    + exists r. by repeat split.
    + simpl. destruct (dist_run_same_fields env c rs l r Hl) as (r1 & Hl1 & H1).
      destruct (IH _ _ Hl1) as (r2 & Hl2 & H2).
      exists r2. split; [done|].
      destruct H1 as (?&?&?&?&?&?), H2 as (?&?&?&?&?&?).
      repeat split; congruence.
  - revert rs r Hl. induction trace as [|[env c] rest IH]; intros rs r Hl.
    + exists r. by repeat split.
    + simpl.
      destruct (ts_run_same_fields index_key env c rs l r Hl)
        as (r1 & Hl1 & H1 & Hr1).
      destruct (IH _ _ Hl1) as (r2 & Hl2 & H2).
      exists r2. split; [done|].
      destruct H1 as (?&?&?&?&?&?), H2 as (?&?&?&?&?&?).
      repeat split; congruence.
Qed.

(** ** The payload of each tool, together *)

Lemma dist_get_results_tool_payload env request_id rs payload :
  (run (Dist.get_results env request_id) rs).2 = Normal payload ->
  tool_payload (call_get_results request_id) payload.
Proof.
  intros Hrun.
  destruct (is_results payload) eqn:Hres.
  { destruct (dist_get_results_Results env request_id rs payload Hrun Hres)
      as (l & r & mc & anns & _ & _ & ->). done. }
  destruct (requests_get rs request_id) as [[l r]|] eqn:Hget.
  - destruct (decide (status r = completed)) as [Hst|Hst].
    + destruct (dist_get_results_extracts env request_id rs l r Hget Hst)
        as [[error He]|(r0 & v & _ & _ & _ & He)];
        rewrite He in Hrun; injection Hrun as <-; simpl; [auto|].
      destruct (Dist.extract r0 v) as [p|] eqn:E; simpl in *; [|auto].
      destruct (dist_extract_shape r0 v p E) as [[error ->]|Hp];
        [simpl; auto|congruence].
    + rewrite (DistFacts.dist_get_results_not_completed env _ _ l r Hget Hst)
        in Hrun.
      injection Hrun as <-. simpl. destruct (status r); simpl; tauto.
  - rewrite (DistFacts.dist_get_results_unknown env _ _ Hget) in Hrun.
    injection Hrun as <-. simpl. auto.
Qed.

Lemma ts_extract_shape index_key r payload :
  Ts.extract index_key r = Normal payload ->
  (exists error, payload = Failure error "error") \/ is_results payload = true.
Proof.
  unfold Ts.extract, results_payload.
  destruct (field (response r) "output") as [output|];
    [|intros [= <-]; eauto].
  destruct (negb (truthy (Some output))); [intros [= <-]; eauto|].
  match goal with |- context [match ?c with Some _ => _ | None => _ end] =>
    destruct c as [mainContent|] end; [|intros [= <-]; eauto].
  destruct (negb (truthy (Some mainContent))); [intros [= <-]; eauto|].
  destruct (extract_citations mainContent); [|discriminate].
  intros [= <-]. by right.
Qed.

Lemma ts_get_results_tool_payload index_key env request_id rs payload :
  (run (Ts.get_results index_key env request_id) rs).2 = Normal payload ->
  tool_payload (call_get_results request_id) payload.
Proof.
  intros Hrun.
  destruct (is_results payload) eqn:Hres.
  { destruct (ts_get_results_Results index_key env request_id rs payload
                Hrun Hres) as (l & r & mc & anns & _ & _ & ->). done. }
  destruct (requests_get rs request_id) as [[l r]|] eqn:Hget.
  - destruct (decide (status r = completed)) as [Hst|Hst].
    + rewrite (TsFacts.ts_get_results_completed index_key env _ _ l r Hget Hst)
        in Hrun.
      injection Hrun as <-.
      destruct (Ts.extract index_key r) as [p|] eqn:E; simpl in *; [|auto].
      destruct (ts_extract_shape index_key r p E) as [[error ->]|Hp];
        [simpl; auto|congruence].
    + rewrite (TsFacts.ts_get_results_not_completed index_key env _ _ l r
                 Hget Hst) in Hrun.
      injection Hrun as <-. simpl. destruct (status r); simpl; tauto.
  - rewrite (TsFacts.ts_get_results_unknown index_key env _ _ Hget) in Hrun.
    injection Hrun as <-. simpl. auto.
Qed.

(** X2. In both builds every handler run returns a payload (none ends
    in a throw), and the payload is one its tool can return: create
    gives the created payload or an error of status ["failed"];
    check_status gives a status report for the id asked or the not_found
    error, never an error of status ["error"]; get_results gives results
    for the id asked or an error of status not_found, pending, failed or
    error. *)
Theorem tool_payloads index_key env c rs :
  exists payload payload',
    (run (Dist.handle env c) rs).2 = Normal payload
    /\ (run (Ts.handle index_key env c) rs).2 = Normal payload'
    /\ tool_payload c payload /\ tool_payload c payload'.
Proof.
  destruct (DistFacts.dist_handle_returns env c rs) as [p Hp].
  destruct (TsFacts.ts_handle_returns index_key env c rs) as [p' Hp'].
  exists p, p'. split; [done|]. split; [done|].
  destruct c as [inputs|request_id|request_id]; simpl in Hp, Hp'.
  - split.
    + destruct (dist_create_payload env inputs rs) as [H|[message H]];
        rewrite H in Hp; by injection Hp as <-.
    + destruct (ts_create_payload env inputs rs) as [H|[message H]];
        rewrite H in Hp'; by injection Hp' as <-.
  - destruct (requests_get rs request_id) as [[l r]|] eqn:Hget.
    + pose proof (requests_get_Some _ _ _ _ Hget) as (Hl & Hid & _).
      split.
      * destruct (dist_check_status_payload env request_id rs l r Hget)
          as (r' & Hl' & H).
        rewrite H in Hp. injection Hp as <-.
        destruct (dist_run_same_fields env (call_check_status request_id)
                    rs l r Hl) as (r2 & Hl2 & Hsame & _).
        simpl in Hl2. rewrite Hl' in Hl2. injection Hl2 as <-.
        simpl. congruence.
      * destruct (ts_check_status_payload env request_id rs l r Hget)
          as (r' & Hl' & H).
        rewrite H in Hp'. injection Hp' as <-.
        destruct (ts_run_same_fields index_key env
                    (call_check_status request_id) rs l r Hl)
          as (r2 & Hl2 & (Hsame & _) & _).
        simpl in Hl2. rewrite Hl' in Hl2. injection Hl2 as <-.
        simpl. congruence.
    + rewrite (DistFacts.dist_check_status_unknown env _ _ Hget) in Hp.
      rewrite (TsFacts.ts_check_status_unknown env _ _ Hget) in Hp'.
      injection Hp as <-. injection Hp' as <-. done.
  - split.
    + by apply (dist_get_results_tool_payload env request_id rs).
    + by apply (ts_get_results_tool_payload index_key env request_id rs).
Qed.

(** ** The calls of a run *)

Lemma dist_create_calls env inputs rs :
  (run (Dist.create env inputs) rs).1.2
  = if key_present (apiKey env) then [create_call inputs] else [].
Proof.
  unfold Dist.create, key_present. unfold_monad. by split_tests.
Qed.

Lemma ts_create_calls env inputs rs :
  (run (Ts.create env inputs) rs).1.2
  = if key_present (apiKey env) then [create_call inputs] else [].
Proof.
  unfold Ts.create, key_present. unfold_monad. by split_tests.
Qed.

Lemma dist_check_status_calls env request_id rs :
  (run (Dist.check_status env request_id) rs).1.2
  = match requests_get rs request_id with
    | Some (_, r) =>
        match openaiResponseId r with
        | Some ref =>
            if truthy (Some ref) && bool_decide (status r = pending)
               && key_present (apiKey env)
            then [responses_retrieve ref] else []
        | None => []
        end
    | None => []
    end.
Proof.
  unfold Dist.check_status, Dist.reconcile, key_present. unfold_monad.
  cbn [requests calls].
  destruct (requests_get rs request_id) as [[l r]|]; [|done].
  destruct (openaiResponseId r) as [ref|]; [|done].
  destruct (truthy (Some ref)); [|done]. cbn [andb].
  by split_tests.
Qed.

Lemma dist_get_results_calls env request_id rs :
  (run (Dist.get_results env request_id) rs).1.2
  = match requests_get rs request_id with
    | Some (_, r) =>
        match openaiResponseId r with
        | Some ref =>
            if truthy (Some ref) && bool_decide (status r = completed)
               && negb (truthy (field (response r) "output"))
               && key_present (apiKey env)
            then [responses_retrieve ref] else []
        | None => []
        end
    | None => []
    end.
Proof.
  destruct (requests_get rs request_id) as [[l r]|] eqn:Hget;
    [|by rewrite DistFacts.dist_get_results_unknown].
  case_bool_decide as Hst;
    [|rewrite (DistFacts.dist_get_results_not_completed env _ _ l r) by done;
      destruct (openaiResponseId r); [by rewrite andb_false_r|done]].
  destruct (openaiResponseId r) as [ref|] eqn:Href;
    [|rewrite (DistFacts.dist_get_results_cached env _ _ l r) by
        (rewrite ?Href; auto); done].
  destruct (truthy (Some ref)) eqn:Htr;
    [|rewrite (DistFacts.dist_get_results_cached env _ _ l r) by
        (rewrite ?Href; auto); done].
  destruct (truthy (field (response r) "output")) eqn:Hout;
    [rewrite (DistFacts.dist_get_results_cached env _ _ l r) by auto; done|].
  destruct (key_present (apiKey env)) eqn:Hkey; cbn.
  - rewrite (DistFacts.dist_get_results_fetch env _ _ l r ref) by done.
    by destruct (engine env (responses_retrieve ref)).
  - by rewrite (DistFacts.dist_get_results_no_key env _ _ l r ref).
Qed.

(** X3. In both builds a handler run makes at most one call on the
    client. create makes the [responses.create] call for its inputs, and
    makes it exactly when the API key is present. In dist/server.js
    check_status retrieves, by the stored response id, exactly when the
    request asked for is stored, pending, has a truthy response id and
    the key is present; get_results retrieves, by the stored response id,
    exactly when the request is stored, completed, has a truthy response
    id and no truthy [output] in its cached response, and the key is
    present. *)
Theorem client_calls env rs :
  (forall inputs,
      (run (Dist.create env inputs) rs).1.2
      = (if key_present (apiKey env) then [create_call inputs] else [])
      /\ (run (Ts.create env inputs) rs).1.2
         = (if key_present (apiKey env) then [create_call inputs] else []))
  /\ (forall request_id,
        (run (Dist.check_status env request_id) rs).1.2
        = match requests_get rs request_id with
          | Some (_, r) =>
              match openaiResponseId r with
              | Some ref =>
                  if truthy (Some ref) && bool_decide (status r = pending)
                     && key_present (apiKey env)
                  then [responses_retrieve ref] else []
              | None => []
              end
          | None => []
          end)
  /\ (forall request_id,
        (run (Dist.get_results env request_id) rs).1.2
        = match requests_get rs request_id with
          | Some (_, r) =>
              match openaiResponseId r with
              | Some ref =>
                  if truthy (Some ref) && bool_decide (status r = completed)
                     && negb (truthy (field (response r) "output"))
                     && key_present (apiKey env)
                  then [responses_retrieve ref] else []
              | None => []
              end
          | None => []
          end).
Proof.
  split; [|split].
  - intros inputs. split; [apply dist_create_calls|apply ts_create_calls].
  - intros request_id. apply dist_check_status_calls.
  - intros request_id. apply dist_get_results_calls.
Qed.

(** ** Requests are never removed *)

Lemma requests_get_is_Some (rs : Requests) (key : string) :
  is_Some (requests_get rs key) <-> is_Some (find_last rs key).
Proof.
  split.
  - intros [[l r] H]. apply requests_get_Some in H as (_ & _ & H). eauto.
  - intros [l H]. destruct (requests_get rs key) eqn:E; [eauto|].
    apply requests_get_None in E. congruence.
Qed.

Lemma dist_effect_known env rs c rs' key :
  Dist.effect env rs c rs' ->
  (length rs <= length rs')%nat
  /\ (is_Some (find_last rs key) -> is_Some (find_last rs' key)).
Proof.
  intros Heff. destruct Heff as [c|inputs doc Hdoc Hk|c l r r' Hassign Hk Href].
  - done.
  - split; [rewrite length_app; lia|].
    change (rs ++ [?r]) with (requests_set rs r). rewrite find_last_set.
    by destruct (String.eqb _ key).
  - split; [by rewrite length_insert|].
    rewrite (find_last_assign rs l r r' key); [done| |by destruct Hassign].
    by eapply DistFacts.dist_assignment_lookup.
Qed.

Lemma ts_effect_known env rs c rs' key :
  Ts.effect env rs c rs' ->
  (length rs <= length rs')%nat
  /\ (is_Some (find_last rs key) -> is_Some (find_last rs' key)).
Proof.
  intros Heff. destruct Heff as [c|inputs doc Hdoc|c l r r' Hassign].
  - done.
  - split; [rewrite length_app; lia|].
    change (rs ++ [?r]) with (requests_set rs r). rewrite find_last_set.
    by destruct (String.eqb _ key).
  - split; [by rewrite length_insert|].
    rewrite (find_last_assign rs l r r' key); [done| |by destruct Hassign].
    by eapply TsFacts.ts_assignment_lookup.
Qed.

Lemma runs_known (handle : Env -> Call -> M Payload) (key : string) :
  (forall env c rs,
      (length rs <= length (run (handle env c) rs).1.1)%nat
      /\ (is_Some (find_last rs key) ->
          is_Some (find_last (run (handle env c) rs).1.1 key))) ->
  forall trace rs,
    (length rs <= length (runs handle trace rs))%nat
    /\ (is_Some (find_last rs key) ->
        is_Some (find_last (runs handle trace rs) key)).
Proof.
  intros Hstep trace. induction trace as [|[env c] rest IH]; intros rs.
  - done.
  - simpl. destruct (Hstep env c rs) as [Hlen Hkey].
    destruct (IH (run (handle env c) rs).1.1) as [Hlen' Hkey'].
    split; [lia|auto].
Qed.

(** X5. In both builds no handler run removes a request: over any
    sequence of runs the number of request objects never decreases, and
    an id that is known stays known, so check_status on it answers with
    a status report for that id and never with not_found. *)
Theorem requests_never_removed index_key trace rs request_id :
  is_Some (requests_get rs request_id) ->
  ((length rs <= length (runs Dist.handle trace rs))%nat
   /\ is_Some (requests_get (runs Dist.handle trace rs) request_id)
   /\ forall env, exists st q m c e,
        (run (Dist.check_status env request_id)
             (runs Dist.handle trace rs)).2
        = Normal (StatusReport request_id st q m c e))
  /\ ((length rs <= length (runs (Ts.handle index_key) trace rs))%nat
      /\ is_Some (requests_get (runs (Ts.handle index_key) trace rs) request_id)
      /\ forall env, exists st q m c e,
           (run (Ts.check_status env request_id)
                (runs (Ts.handle index_key) trace rs)).2
           = Normal (StatusReport request_id st q m c e)).
Proof.
  intros Hknown. apply requests_get_is_Some in Hknown. split.
  - destruct (runs_known Dist.handle request_id
                (fun env c rs0 =>
                   dist_effect_known env rs0 c _ request_id
                     (DistFacts.dist_handle_effect env c rs0)) trace rs)
      as [Hlen Hkey].
    split; [done|]. specialize (Hkey Hknown).
    apply requests_get_is_Some in Hkey as Hget. split; [done|].
    destruct Hget as [[l r] Hget]. intros env.
    pose proof (requests_get_Some _ _ _ _ Hget) as (Hl & Hid & _).
    destruct (dist_check_status_payload env request_id _ l r Hget)
      as (r' & Hl' & ->).
    destruct (dist_run_same_fields env (call_check_status request_id) _ l r Hl)
      as (r2 & Hl2 & Hsame & _).
    simpl in Hl2. rewrite Hl' in Hl2. injection Hl2 as <-.
    unfold status_report. rewrite Hsame, Hid. eauto 10.
  - destruct (runs_known (Ts.handle index_key) request_id
                (fun env c rs0 =>
                   ts_effect_known env rs0 c _ request_id
                     (TsFacts.ts_handle_effect index_key env c rs0)) trace rs)
      as [Hlen Hkey].
    split; [done|]. specialize (Hkey Hknown).
    apply requests_get_is_Some in Hkey as Hget. split; [done|].
    destruct Hget as [[l r] Hget]. intros env.
    pose proof (requests_get_Some _ _ _ _ Hget) as (Hl & Hid & _).
    destruct (ts_check_status_payload env request_id _ l r Hget)
      as (r' & Hl' & ->).
    destruct (ts_run_same_fields index_key env (call_check_status request_id)
                _ l r Hl) as (r2 & Hl2 & (Hsame & _) & _).
    simpl in Hl2. rewrite Hl' in Hl2. injection Hl2 as <-.
    unfold status_report. rewrite Hsame, Hid. eauto 10.
Qed.

(** ** Polling in dist/server.js *)

(** X7. In dist/server.js, when check_status retrieves for a pending
    request and the retrieval is rejected, or gives [null], or gives a
    response whose [status] is neither ["completed"] nor ["failed"], the
    failure is swallowed: the one call was made, no request is changed,
    and the request is reported pending. *)
Theorem polling_failure_swallowed env request_id rs l r ref :
  requests_get rs request_id = Some (l, r) ->
  status r = pending ->
  openaiResponseId r = Some ref ->
  truthy (Some ref) = true ->
  key_present (apiKey env) = true ->
  match engine env (responses_retrieve ref) with
  | Rejects _ => True
  | Resolves doc =>
      is_string (get_field doc "status") "completed" = false
      /\ is_string (get_field doc "status") "failed" = false
  end ->
  run (Dist.check_status env request_id) rs
  = (rs, [responses_retrieve ref],
     Normal (StatusReport request_id pending (query r) (model r) (createdAt r)
               (round_minutes (now env - createdAt r)))).
Proof.
  intros Hget Hst Href Htr Hkey Hreply.
  pose proof (requests_get_Some _ _ _ _ Hget) as (Hl & Hid & _).
  rewrite (DistFacts.dist_check_status_pending env request_id rs l r ref)
    by done.
  assert (Dist.reconciled r (engine env (responses_retrieve ref)) = r) as ->.
  { unfold Dist.reconciled.
    destruct (engine env (responses_retrieve ref)) as [doc|]; [|done].
    destruct Hreply as [-> ->]. done. }
  rewrite list_insert_id by done.
  unfold status_report, elapsed_ms. by rewrite Hst, Hid.
Qed.

(** ** A request stored without a response id *)

Lemma dist_effect_no_reference env rs c rs' l r :
  Dist.effect env rs c rs' ->
  rs !! l = Some r ->
  truthy (openaiResponseId r) = false ->
  rs' !! l = Some r.
Proof.
  intros Heff Hl Href.
  destruct Heff as [c|inputs doc Hdoc Hk|c l0 r0 r0' Hassign Hk Href0].
  - done.
  - by apply lookup_app_l_Some.
  - pose proof (DistFacts.dist_assignment_lookup _ _ _ _ _ _ Hassign) as Hl0.
    destruct (decide (l = l0)) as [->|Hne]; [congruence|].
    by rewrite list_lookup_insert_ne.
Qed.

Lemma dist_runs_no_reference trace rs l r :
  rs !! l = Some r ->
  truthy (openaiResponseId r) = false ->
  runs Dist.handle trace rs !! l = Some r.
Proof.
  revert rs. induction trace as [|[env c] rest IH]; intros rs Hl Href; [done|].
  simpl. apply IH; [|done].
  by apply (dist_effect_no_reference env rs c _ l r
              (DistFacts.dist_handle_effect env c rs)).
Qed.

(** X8. In dist/server.js, when the response of the create call is not
    [null] but has no truthy [id], create still stores a pending request
    and returns its id; that request object is then never changed by any
    sequence of handler runs: it stays pending. *)
Theorem request_without_response_id env inputs rs doc :
  key_present (apiKey env) = true ->
  engine env (create_call inputs) = Resolves doc ->
  doc <> JNull ->
  truthy (get_field doc "id") = false ->
  exists r,
    run (Dist.create env inputs) rs
    = (rs ++ [r], [create_call inputs], Normal (Created (requestId env)))
    /\ id r = requestId env /\ status r = pending
    /\ forall trace,
        runs Dist.handle trace (rs ++ [r]) !! length rs = Some r.
Proof.
  intros Hkey Hdoc Hnull Hid.
  rewrite (DistFacts.dist_create_resolved env inputs rs doc) by done.
  eexists. split; [reflexivity|]. split; [done|]. split; [done|].
  intros trace. apply dist_runs_no_reference; [|done].
  by rewrite list_lookup_middle.
Qed.

(** ** Annotations that cannot be iterated *)

Lemma dist_extract_main r doc messages lastMessage mainContent others :
  get_field doc "output" = Some (JArray (messages ++ [lastMessage])) ->
  get_field lastMessage "content" = Some (JArray (mainContent :: others)) ->
  truthy (Some mainContent) = true ->
  Dist.extract r (Some doc) = results_payload r mainContent.
Proof.
  intros Hout Hcontent Hmain.
  assert (exists fields, doc = JObject fields) as [fields ->]
    by (destruct doc; try discriminate; eauto).
  assert (exists fields', lastMessage = JObject fields') as [fields' ->]
    by (destruct lastMessage; try discriminate; eauto).
  unfold Dist.extract. cbn [truthy negb field].
  rewrite Hout. cbn [truthy isArray array_items negb orb].
  rewrite last_snoc. cbn [truthy negb field orb].
  rewrite Hcontent. cbn [truthy isArray array_items negb orb head].
  rewrite length_app. simpl length.
  case_bool_decide; [lia|]. cbn [orb].
  cbn [truthy] in Hmain. by rewrite Hmain.
Qed.

Lemma ts_extract_main index_key r doc messages lastMessage mainContent others :
  response r = Some doc ->
  get_field doc "output" = Some (JArray (messages ++ [lastMessage])) ->
  get_field lastMessage "content" = Some (JArray (mainContent :: others)) ->
  truthy (Some mainContent) = true ->
  Ts.extract index_key r = results_payload r mainContent.
Proof.
  intros Hresp Hout Hcontent Hmain.
  unfold Ts.extract. rewrite Hresp. cbn [field]. rewrite Hout.
  cbn [truthy negb Ts.last_element]. rewrite last_snoc. cbn [field].
  rewrite Hcontent. cbn [first_element head].
  cbn [truthy] in Hmain. by rewrite Hmain.
Qed.

Lemma forEach_push_null (annotations : list Json) (index : nat)
      (citations : list Citation) :
  In JNull annotations ->
  exists message, forEach_push annotations index citations = Throw message.
Proof.
  revert index citations.
  induction annotations as [|a rest IH]; intros index citations Hin; [done|].
  destruct Hin as [->|Hin]; [simpl; eauto|].
  destruct a; simpl; eauto.
Qed.

Lemma extract_citations_throws (mainContent annotations : Json) :
  get_field mainContent "annotations" = Some annotations ->
  truthy (Some annotations) = true ->
  match annotations with
  | JArray items => In JNull items
  | _ => True
  end ->
  exists message, extract_citations mainContent = Throw message.
Proof.
  intros Hann Htruthy Hbad. unfold extract_citations.
  rewrite Hann, Htruthy.
  destruct annotations; eauto using forEach_push_null.
Qed.

(** X10. In both builds, for a completed request whose response has a
    last message with a truthy first content item, when that item's
    [annotations] is truthy and is not an array, or is an array with a
    [null] among its elements, get_results returns no results and no
    partial list of citations: it returns the error payload of its outer
    catch, ["Failed to get results: ..."] with status ["error"], makes no
    call on the client and changes no request. *)
Theorem annotations_not_iterable index_key env request_id rs l r doc messages
        lastMessage mainContent others annotations :
  requests_get rs request_id = Some (l, r) ->
  status r = completed ->
  response r = Some doc ->
  get_field doc "output" = Some (JArray (messages ++ [lastMessage])) ->
  get_field lastMessage "content" = Some (JArray (mainContent :: others)) ->
  truthy (Some mainContent) = true ->
  get_field mainContent "annotations" = Some annotations ->
  truthy (Some annotations) = true ->
  match annotations with
  | JArray items => In JNull items
  | _ => True
  end ->
  exists message,
    run (Dist.get_results env request_id) rs
    = (rs, [], Normal (Failure ("Failed to get results: " +:+ message) "error"))
    /\ run (Ts.get_results index_key env request_id) rs
       = (rs, [],
          Normal (Failure ("Failed to get results: " +:+ message) "error")).
Proof.
  intros Hget Hst Hresp Hout Hcontent Hmain Hann Htruthy Hbad.
  destruct (extract_citations_throws mainContent annotations Hann Htruthy Hbad)
    as [message Hthrow].
  exists message. split.
  - rewrite (DistFacts.dist_get_results_cached env request_id rs l r Hget Hst).
    + rewrite Hresp.
      rewrite (dist_extract_main r doc messages lastMessage mainContent others)
        by done.
      unfold results_payload. by rewrite Hthrow.
    + right. rewrite Hresp. cbn [field]. by rewrite Hout.
  - rewrite (TsFacts.ts_get_results_completed index_key env request_id rs l r
               Hget Hst).
    rewrite (ts_extract_main index_key r doc messages lastMessage mainContent
               others) by done.
    unfold results_payload. by rewrite Hthrow.
Qed.

(** ** Results, once returned, stay the same *)

Lemma dist_effect_results_kept env rs c rs' request_id l r :
  Dist.effect env rs c rs' ->
  match c with call_create _ => requestId env <> request_id | _ => True end ->
  requests_get rs request_id = Some (l, r) ->
  status r = completed ->
  truthy (field (response r) "output") = true ->
  requests_get rs' request_id = Some (l, r).
Proof.
  intros Heff Hc Hget Hst Hout.
  destruct Heff as [c|inputs doc Hdoc Hk|c l0 r0 r0' Hassign Hk Href0].
  - done.
  - change (rs ++ [?x]) with (requests_set rs x).
    rewrite requests_get_set_other; done.
  - pose proof (DistFacts.dist_assignment_lookup _ _ _ _ _ _ Hassign) as Hl0.
    pose proof (requests_get_Some _ _ _ _ Hget) as (Hl & _).
    destruct (decide (l0 = l)) as [->|Hne].
    + assert (r0 = r) as -> by congruence.
      destruct Hassign; congruence.
    + rewrite (requests_get_assign_other rs request_id l l0 r r0 r0');
        try done.
      by destruct Hassign.
Qed.

Lemma ts_effect_results_kept env rs c rs' request_id l r :
  Ts.effect env rs c rs' ->
  match c with call_create _ => requestId env <> request_id | _ => True end ->
  requests_get rs request_id = Some (l, r) ->
  status r = completed ->
  requests_get rs' request_id = Some (l, r).
Proof.
  intros Heff Hc Hget Hst.
  destruct Heff as [c|inputs doc Hdoc|c l0 r0 r0' Hassign].
  - done.
  - change (rs ++ [?x]) with (requests_set rs x).
    rewrite requests_get_set_other; done.
  - pose proof (TsFacts.ts_assignment_lookup _ _ _ _ _ _ Hassign) as Hl0.
    pose proof (requests_get_Some _ _ _ _ Hget) as (Hl & _).
    destruct (decide (l0 = l)) as [->|Hne].
    + assert (r0 = r) as -> by congruence.
      destruct Hassign; congruence.
    + rewrite (requests_get_assign_other rs request_id l l0 r r0 r0');
        try done.
      by destruct Hassign.
Qed.

Lemma dist_runs_results_kept trace rs request_id l r :
  no_create_of request_id trace ->
  requests_get rs request_id = Some (l, r) ->
  status r = completed ->
  truthy (field (response r) "output") = true ->
  requests_get (runs Dist.handle trace rs) request_id = Some (l, r).
Proof.
  revert rs. induction trace as [|[env c] rest IH]; intros rs Htr Hget Hst Hout;
    [done|].
  apply Forall_cons in Htr as [Hc Hrest]. simpl. apply IH; try done.
  by apply (dist_effect_results_kept env rs c _ request_id l r
              (DistFacts.dist_handle_effect env c rs)).
Qed.

Lemma ts_runs_results_kept index_key trace rs request_id l r :
  no_create_of request_id trace ->
  requests_get rs request_id = Some (l, r) ->
  status r = completed ->
  requests_get (runs (Ts.handle index_key) trace rs) request_id = Some (l, r).
Proof.
  revert rs. induction trace as [|[env c] rest IH]; intros rs Htr Hget Hst;
    [done|].
  apply Forall_cons in Htr as [Hc Hrest]. simpl. apply IH; try done.
  by apply (ts_effect_results_kept env rs c _ request_id l r
              (TsFacts.ts_handle_effect index_key env c rs)).
Qed.

(** After a get_results of dist/server.js that returned results, the
    request holds a response with a truthy [output], and the results are
    what is extracted from it. *)
Lemma dist_get_results_cache env request_id rs payload :
  (run (Dist.get_results env request_id) rs).2 = Normal payload ->
  is_results payload = true ->
  exists l r,
    requests_get (run (Dist.get_results env request_id) rs).1.1 request_id
    = Some (l, r)
    /\ status r = completed
    /\ truthy (field (response r) "output") = true
    /\ payload = caught "Failed to get results: " "error"
                   (Dist.extract r (response r)).
Proof.
  intros Hrun Hres.
  destruct (dist_get_results_payload env request_id rs payload Hrun Hres)
    as (l & r & Hget & Hst).
  assert (forall r0 (v : JsValue),
             is_results (caught "Failed to get results: " "error"
                           (Dist.extract r0 v)) = true ->
             truthy (field v "output") = true) as Houtput.
  { intros r0 v H0.
    destruct (dist_extract_outcome r0 v) as [[error He]|[_ Hmal]].
    - rewrite He in H0. discriminate.
    - destruct (truthy (field v "output")) eqn:E; [done|].
      exfalso. apply Hmal. by left. }
  destruct (truthy (field (response r) "output")) eqn:Hout.
  - rewrite (DistFacts.dist_get_results_cached env request_id rs l r) in *
      by auto.
    simpl in *. injection Hrun as <-. eauto 10.
  - destruct (openaiResponseId r) as [ref|] eqn:Href; cycle 1.
    { rewrite (DistFacts.dist_get_results_cached env request_id rs l r) in *
        by (rewrite ?Href; auto).
      simpl in Hrun. injection Hrun as <-.
      apply Houtput in Hres. congruence. }
    destruct (truthy (Some ref)) eqn:Htr; cycle 1.
    { rewrite (DistFacts.dist_get_results_cached env request_id rs l r) in *
        by (rewrite ?Href; auto).
      simpl in Hrun. injection Hrun as <-.
      apply Houtput in Hres. congruence. }
    destruct (key_present (apiKey env)) eqn:Hkey; cycle 1.
    { rewrite (DistFacts.dist_get_results_no_key env request_id rs l r ref)
        in Hrun by done.
      simpl in Hrun. injection Hrun as <-. discriminate. }
    pose proof (DistFacts.dist_get_results_fetch env request_id rs l r ref
                  Hget Hst Href Htr Hout Hkey) as Hfetch.
    destruct (engine env (responses_retrieve ref)) as [doc|message].
    + rewrite Hfetch in *. simpl in Hrun. injection Hrun as <-.
      exists l, (set_response (Some doc) r).
      pose proof (requests_get_Some _ _ _ _ Hget) as (Hl & _).
      split; [by apply (requests_get_assign rs request_id l r)|].
      split; [done|]. split; [by apply Houtput in Hres|done].
    + rewrite Hfetch in Hrun. simpl in Hrun. injection Hrun as <-. discriminate.
Qed.

(** X11. In both builds, once get_results has returned results for an
    id, every later get_results for that id (with any client and clock)
    returns the same payload, makes no call on the client and changes no
    request, whatever handler runs come in between, as long as none of
    them is a create that draws the same id again. *)
Theorem results_are_stable index_key env env' request_id rs payload trace :
  no_create_of request_id trace ->
  is_results payload = true ->
  ((run (Dist.get_results env request_id) rs).2 = Normal payload ->
   let rs' := runs Dist.handle trace
                (run (Dist.get_results env request_id) rs).1.1 in
   run (Dist.get_results env' request_id) rs' = (rs', [], Normal payload))
  /\ ((run (Ts.get_results index_key env request_id) rs).2 = Normal payload ->
      let rs' := runs (Ts.handle index_key) trace
                   (run (Ts.get_results index_key env request_id) rs).1.1 in
      run (Ts.get_results index_key env' request_id) rs'
      = (rs', [], Normal payload)).
Proof.
  intros Htrace Hres. split; intros Hrun; cbv zeta.
  - destruct (dist_get_results_cache env request_id rs payload Hrun Hres)
      as (l & r & Hget & Hst & Hout & ->).
    pose proof (dist_runs_results_kept trace _ request_id l r Htrace Hget Hst
                  Hout) as Hget'.
    rewrite (DistFacts.dist_get_results_cached env' request_id _ l r Hget' Hst)
      by auto.
    done.
  - destruct (ts_get_results_payload index_key env request_id rs payload Hrun
                Hres) as (l & r & Hget & Hst).
    rewrite (TsFacts.ts_get_results_completed index_key env request_id rs l r
               Hget Hst) in *.
    simpl in Hrun. injection Hrun as <-. cbn [fst].
    pose proof (ts_runs_results_kept index_key trace _ request_id l r Htrace
                  Hget Hst) as Hget'.
    by rewrite (TsFacts.ts_get_results_completed index_key env' request_id _
                  l r Hget' Hst).
Qed.

(** ** From create to the results (dist/server.js) *)

Lemma is_string_failed_not_completed (v : JsValue) :
  is_string v "failed" = true -> is_string v "completed" = false.
Proof.
  destruct v as [[]|]; simpl; try done.
  intros H. apply String.eqb_eq in H as ->. done.
Qed.

Lemma get_field_not_null (doc : Json) (name : string) (v : Json) :
  get_field doc name = Some v -> doc <> JNull.
Proof. by intros H ->. Qed.


(** X13. In dist/server.js, after a create whose response carries a
    truthy [id], a check_status that retrieves a response reported
    failed returns status failed and records the error text on the
    request, which gets no response; from then on get_results answers
    with the not-completed error and status ["failed"], and check_status
    with status failed, both without a call on the client. *)
Theorem research_failure env1 env2 env3 inputs rs started ref doc :
  key_present (apiKey env1) = true ->
  engine env1 (create_call inputs) = Resolves started ->
  get_field started "id" = Some ref ->
  truthy (Some ref) = true ->
  key_present (apiKey env2) = true ->
  engine env2 (responses_retrieve ref) = Resolves doc ->
  is_string (get_field doc "status") "failed" = true ->
  exists rs1 rs2 r,
    run (Dist.create env1 inputs) rs
    = (rs1, [create_call inputs], Normal (Created (requestId env1)))
    /\ run (Dist.check_status env2 (requestId env1)) rs1
       = (rs2, [responses_retrieve ref],
          Normal (StatusReport (requestId env1) failed (in_query inputs)
                    (in_model inputs) (created env1)
                    (round_minutes (now env2 - created env1))))
    /\ requests_get rs2 (requestId env1) = Some (length rs, r)
    /\ error r = Some "Research request failed"
    /\ response r = undefined
    /\ run (Dist.get_results env3 (requestId env1)) rs2
       = (rs2, [],
          Normal (Failure ("Request " +:+ requestId env1
                           +:+ " is not completed. Status: failed") "failed"))
    /\ run (Dist.check_status env3 (requestId env1)) rs2
       = (rs2, [],
          Normal (StatusReport (requestId env1) failed (in_query inputs)
                    (in_model inputs) (created env1)
                    (round_minutes (now env3 - created env1)))).
Proof.
  intros Hkey1 Hcreate Hid Href Hkey2 Hretrieve Hfailed.
  set (r := mkRequest (requestId env1) (in_query inputs)
              (in_system_message inputs) (in_model inputs) pending
              undefined None (created env1) (Some ref)).
  set (r' := set_error "Research request failed" (set_status failed r)).
  exists (requests_set rs r), (<[length rs := r']> (requests_set rs r)), r'.
  assert (requests_get (requests_set rs r) (requestId env1)
          = Some (length rs, r)) as Hget by apply (requests_get_set rs).
  assert (requests_get (<[length rs := r']> (requests_set rs r)) (requestId env1)
          = Some (length rs, r')) as Hget'
      by by apply (requests_get_assign _ _ _ r).
  split; [|split; [|split; [done|split; [done|split; [done|split]]]]].
  - rewrite (DistFacts.dist_create_resolved env1 inputs rs started Hkey1 Hcreate)
      by by eapply get_field_not_null.
    by rewrite Hid.
  - rewrite (DistFacts.dist_check_status_pending env2 _ _ _ r ref Hget)
      by done.
    unfold Dist.reconciled.
    by rewrite Hretrieve, (is_string_failed_not_completed _ Hfailed), Hfailed.
  - by rewrite (DistFacts.dist_get_results_not_completed env3 _ _ _ r' Hget').
  - by rewrite (DistFacts.dist_check_status_settled env3 _ _ _ r' Hget').
Qed.

(** ** The status report *)

Lemma round_minutes_bounds (ms : Z) :
  60000 * round_minutes ms - 30000 <= ms < 60000 * round_minutes ms + 30000.
Proof.
  unfold round_minutes.
  pose proof (Z.div_mod (ms + 30000) 60000 ltac:(lia)).
  pose proof (Z.mod_pos_bound (ms + 30000) 60000 ltac:(lia)).
  lia.
Qed.

(** X15. In both builds, a status report returned by check_status is
    about the request stored under the id asked for: it carries that id
    and the stored query, model and creation time, and its
    [elapsed_minutes] is the time from creation to the clock reading
    rounded to the nearest minute (at most half a minute away, a half
    rounding up). *)
Theorem status_report_fields env request_id rs rid st q m c e :
  (run (Dist.check_status env request_id) rs).2
  = Normal (StatusReport rid st q m c e)
  \/ (run (Ts.check_status env request_id) rs).2
     = Normal (StatusReport rid st q m c e) ->
  rid = request_id
  /\ (exists l r,
        requests_get rs request_id = Some (l, r)
        /\ q = query r /\ m = model r /\ c = createdAt r)
  /\ 60000 * e - 30000 <= now env - c < 60000 * e + 30000.
Proof.
  intros Hrun.
  destruct (requests_get rs request_id) as [[l r]|] eqn:Hget; cycle 1.
  { destruct Hrun as [Hrun|Hrun];
      [rewrite DistFacts.dist_check_status_unknown in Hrun by done
      |rewrite TsFacts.ts_check_status_unknown in Hrun by done];
      discriminate. }
  pose proof (requests_get_Some _ _ _ _ Hget) as (Hl & Hid & _).
  assert (exists r', same_fields r r'
                     /\ StatusReport rid st q m c e = status_report env r')
    as (r' & (Hid' & Hq & _ & Hm & Hc & _) & Heq).
  { destruct Hrun as [Hrun|Hrun].
    - destruct (dist_check_status_payload env request_id rs l r Hget)
        as (r' & Hl' & Hpay).
      destruct (dist_run_same_fields env (call_check_status request_id) rs l r
                  Hl) as (r2 & Hl2 & Hsame).
      simpl in Hl2. rewrite Hl' in Hl2. injection Hl2 as <-.
      exists r'. split; [done|]. congruence.
    - destruct (ts_check_status_payload env request_id rs l r Hget)
        as (r' & Hl' & Hpay).
      destruct (ts_run_same_fields (fun _ => "") env
                  (call_check_status request_id) rs l r Hl)
        as (r2 & Hl2 & Hsame & _).
      simpl in Hl2. rewrite Hl' in Hl2. injection Hl2 as <-.
      exists r'. split; [done|]. congruence. }
  unfold status_report, elapsed_ms in Heq.
  injection Heq as -> -> -> -> -> ->.
  split; [congruence|]. split; [eauto 10|].
  apply round_minutes_bounds.
Qed.

(** ** What create sends *)

(** X16. In both builds a successful create makes one call,
    [responses.create] with the model asked for. Its input ends with the
    user message that carries the query; a developer message is sent
    exactly when [system_message] is given and not empty, and there is
    nothing else in the input. The tools start with web_search_preview,
    and code_interpreter is among them exactly when asked for. The stored
    request keeps [system_message] as given, also when it is empty and
    was not sent. *)
Theorem create_sends env inputs rs doc :
  key_present (apiKey env) = true ->
  engine env (create_call inputs) = Resolves doc ->
  doc <> JNull ->
  exists r r' messages tool_list,
    run (Dist.create env inputs) rs
    = (requests_set rs r,
       [responses_create (in_model inputs) messages tool_list],
       Normal (Created (requestId env)))
    /\ run (Ts.create env inputs) rs
       = (requests_set rs r',
          [responses_create (in_model inputs) messages tool_list],
          Normal (Created (requestId env)))
    /\ systemMessage r = in_system_message inputs
    /\ systemMessage r' = in_system_message inputs
    /\ last messages = Some (mkMessage "user" (in_query inputs))
    /\ (forall message,
          In message messages ->
          message = mkMessage "user" (in_query inputs)
          \/ (exists m, in_system_message inputs = Some m /\ m <> ""
                        /\ message = mkMessage "developer" m))
    /\ (forall m, in_system_message inputs = Some m -> m <> "" ->
                  messages = [mkMessage "developer" m;
                              mkMessage "user" (in_query inputs)])
    /\ head tool_list = Some "web_search_preview"
    /\ (In "code_interpreter" tool_list
        <-> in_include_code_interpreter inputs = true).
Proof.
  intros Hkey Hcreate Hdoc.
  rewrite (DistFacts.dist_create_resolved env inputs rs doc) by done.
  rewrite (TsFacts.ts_create_resolved env inputs rs doc) by done.
  do 2 eexists. exists (inputMessages inputs), (tools inputs).
  split; [reflexivity|]. split; [reflexivity|].
  split; [done|]. split; [done|].
  unfold inputMessages, tools.
  split; [by rewrite last_snoc|]. split; [|split; [|split; [done|]]].
  - intros message Hin. apply in_app_or in Hin as [Hin|Hin].
    + destruct (in_system_message inputs) as [m|]; [|done].
      destruct (String.eqb m "") eqn:E; [done|].
      apply String.eqb_neq in E.
      destruct Hin as [<-|[]]. right. eauto.
    + destruct Hin as [<-|[]]. by left.
  - intros m -> Hm. apply String.eqb_neq in Hm. by rewrite Hm.
  - destruct (in_include_code_interpreter inputs); simpl.
    + split; [done|]. auto.
    + split; [|done]. intros [H|[]]. discriminate.
Qed.

(** ** From create to the results (src/server.ts) *)


(** ** The properties above, on the example data *)

Lemma check_status_unknown_id_witness :
  Forall (fun r => id r <> "req_404") example_dist_created
  /\ run (Dist.check_status (example_env (Rejects "unused") 2000) "req_404")
         example_dist_created
     = (example_dist_created, [],
        Normal (Failure ("Request ID " +:+ "req_404" +:+ " not found")
                        "not_found"))
  /\ run (Ts.check_status (example_env (Rejects "unused") 2000) "req_404")
         example_dist_created
     = (example_dist_created, [],
        Normal (Failure ("Request ID " +:+ "req_404" +:+ " not found")
                        "not_found")).
Proof.
  assert (Forall (fun r => id r <> "req_404") example_dist_created) as Hnone
    by (repeat constructor; discriminate).
  split; [exact Hnone|].
  exact (check_status_unknown_id (example_env (Rejects "unused") 2000)
           "req_404" example_dist_created Hnone).
Defined.

Lemma fields_never_change_witness :
  example_dist_created !! 0%nat = Some example_dist_request
  /\ exists r',
      runs Dist.handle
           [(example_env (Resolves example_response) 2000,
             call_check_status "req_1000_abc");
            (example_env (Rejects "down") 3000,
             call_get_results "req_1000_abc")]
           example_dist_created !! 0%nat = Some r'
      /\ id r' = "req_1000_abc" /\ query r' = "ping"
      /\ createdAt r' = 1000
      /\ openaiResponseId r' = Some (JString "op_1").
Proof.
  split; [reflexivity|].
  destruct (fields_never_change example_index_key
              [(example_env (Resolves example_response) 2000,
                call_check_status "req_1000_abc");
               (example_env (Rejects "down") 3000,
                call_get_results "req_1000_abc")]
              example_dist_created 0%nat example_dist_request eq_refl)
    as [(r' & Hl & Hid & Hq & _ & _ & Hc & Href) _].
  exists r'. repeat split; assumption.
Defined.

Lemma requests_never_removed_witness :
  is_Some (requests_get example_dist_created "req_1000_abc")
  /\ is_Some (requests_get
                (runs Dist.handle example_later_runs example_dist_created)
                "req_1000_abc")
  /\ is_Some (requests_get
                (runs (Ts.handle example_index_key) example_later_runs
                      example_dist_created)
                "req_1000_abc").
Proof.
  assert (is_Some (requests_get example_dist_created "req_1000_abc")) as Hknown
    by (exists (0%nat, example_dist_request); reflexivity).
  split; [exact Hknown|].
  destruct (requests_never_removed example_index_key example_later_runs
              example_dist_created "req_1000_abc" Hknown)
    as [(_ & Hdist & _) (_ & Hts & _)].
  split; assumption.
Defined.

Lemma no_key_no_call_witness :
  key_present (apiKey example_keyless_env) = false
  /\ run (Dist.create example_keyless_env example_inputs) []
     = ([], [],
        Normal (Failure ("Failed to create research request: "
                         +:+ "OPENAI_API_KEY environment variable is required")
                        "failed"))
  /\ (run (Dist.handle example_keyless_env (call_check_status "req_1000_abc"))
          example_dist_created).1
     = (example_dist_created, []).
Proof.
  split; [reflexivity|].
  destruct (no_key_no_call example_index_key example_keyless_env [] eq_refl)
    as (Hcreate & _ & _).
  split; [exact (proj1 (Hcreate example_inputs))|].
  destruct (no_key_no_call example_index_key example_keyless_env
              example_dist_created eq_refl) as (_ & Hdist & _).
  exact (Hdist (call_check_status "req_1000_abc")).
Defined.

Lemma polling_failure_swallowed_witness :
  requests_get example_dist_created "req_1000_abc"
  = Some (0%nat, example_dist_request)
  /\ is_string (get_field example_running_response "status") "completed" = false
  /\ is_string (get_field example_running_response "status") "failed" = false
  /\ run (Dist.check_status
            (example_env (Resolves example_running_response) 91000)
            "req_1000_abc") example_dist_created
     = (example_dist_created, [responses_retrieve (JString "op_1")],
        Normal (StatusReport "req_1000_abc" pending "ping"
                  o4_mini_deep_research 1000 2)).
Proof.
  split; [reflexivity|]. split; [reflexivity|]. split; [reflexivity|].
  exact (polling_failure_swallowed
           (example_env (Resolves example_running_response) 91000)
           "req_1000_abc" example_dist_created 0%nat example_dist_request
           (JString "op_1") eq_refl eq_refl eq_refl eq_refl eq_refl
           (conj eq_refl eq_refl)).
Defined.

Lemma request_without_response_id_witness :
  key_present (apiKey example_anonymous_env) = true
  /\ engine example_anonymous_env (create_call example_inputs)
     = Resolves example_anonymous_response
  /\ truthy (get_field example_anonymous_response "id") = false
  /\ exists r,
      run (Dist.create example_anonymous_env example_inputs) []
      = ([] ++ [r], [create_call example_inputs],
         Normal (Created (requestId example_anonymous_env)))
      /\ id r = requestId example_anonymous_env /\ status r = pending
      /\ forall trace, runs Dist.handle trace ([] ++ [r]) !! length (@nil ResearchRequest) = Some r.
Proof.
  split; [reflexivity|]. split; [reflexivity|]. split; [reflexivity|].
  assert (example_anonymous_response <> JNull) as Hdoc by discriminate.
  exact (request_without_response_id example_anonymous_env example_inputs []
           example_anonymous_response eq_refl eq_refl Hdoc eq_refl).
Defined.

Lemma results_payload_consistent_witness :
  (run (Dist.get_results (example_env (Rejects "down") 5000) "req_1000_abc")
       (example_dist_checked example_response)).2
  = Normal (Results "req_1000_abc" "ping" o4_mini_deep_research
              (reportText example_answer) (imap citation_of example_annotations)
              3%nat)
  /\ 3%nat = length (imap citation_of example_annotations)
  /\ forall i citation,
      imap citation_of example_annotations !! i = Some citation ->
      citation_id citation = (i + 1)%nat
      /\ truthy (Some (title citation)) = true.
Proof.
  assert ((run (Dist.get_results (example_env (Rejects "down") 5000)
                  "req_1000_abc")
               (example_dist_checked example_response)).2
          = Normal (Results "req_1000_abc" "ping" o4_mini_deep_research
                      (reportText example_answer)
                      (imap citation_of example_annotations) 3%nat)) as Hrun
    by reflexivity.
  split; [exact Hrun|].
  destruct (results_payload_consistent example_index_key
              (example_env (Rejects "down") 5000) "req_1000_abc"
              (example_dist_checked example_response)
              "req_1000_abc" "ping" o4_mini_deep_research
              (reportText example_answer)
              (imap citation_of example_annotations) 3%nat (or_introl Hrun))
    as (_ & _ & Hcount & Hcitations & _).
  split; assumption.
Defined.

Lemma annotations_not_iterable_witness :
  requests_get (example_dist_checked example_null_response) "req_1000_abc"
  = Some (0%nat, example_dist_completed example_null_response)
  /\ get_field example_null_answer "annotations"
     = Some (JArray [JObject [("title", JString "Src")]; JNull])
  /\ In JNull [JObject [("title", JString "Src")]; JNull]
  /\ exists message,
      run (Dist.get_results (example_env (Rejects "down") 5000) "req_1000_abc")
          (example_dist_checked example_null_response)
      = (example_dist_checked example_null_response, [],
         Normal (Failure ("Failed to get results: " +:+ message) "error"))
      /\ run (Ts.get_results example_index_key
                (example_env (Rejects "down") 5000) "req_1000_abc")
             (example_dist_checked example_null_response)
         = (example_dist_checked example_null_response, [],
            Normal (Failure ("Failed to get results: " +:+ message) "error")).
Proof.
  assert (In JNull [JObject [("title", JString "Src")]; JNull]) as Hin
    by (right; left; reflexivity).
  split; [reflexivity|]. split; [reflexivity|]. split; [exact Hin|].
  exact (annotations_not_iterable example_index_key
           (example_env (Rejects "down") 5000) "req_1000_abc"
           (example_dist_checked example_null_response) 0%nat
           (example_dist_completed example_null_response)
           example_null_response [] example_null_message example_null_answer []
           (JArray [JObject [("title", JString "Src")]; JNull])
           eq_refl eq_refl eq_refl eq_refl eq_refl eq_refl eq_refl eq_refl Hin).
Defined.

Lemma results_are_stable_witness :
  no_create_of "req_1000_abc" example_later_runs
  /\ (run (Dist.get_results (example_env (Rejects "down") 5000) "req_1000_abc")
          (example_dist_checked example_response)).2
     = Normal (Results "req_1000_abc" "ping" o4_mini_deep_research
                 (reportText example_answer)
                 (imap citation_of example_annotations) 3%nat)
  /\ (run (Dist.get_results (example_env (Rejects "gone") 20000) "req_1000_abc")
          (runs Dist.handle example_later_runs
             (run (Dist.get_results (example_env (Rejects "down") 5000)
                     "req_1000_abc")
                  (example_dist_checked example_response)).1.1)).2
     = Normal (Results "req_1000_abc" "ping" o4_mini_deep_research
                 (reportText example_answer)
                 (imap citation_of example_annotations) 3%nat).
Proof.
  assert (no_create_of "req_1000_abc" example_later_runs) as Htrace
    by (repeat constructor; discriminate).
  assert ((run (Dist.get_results (example_env (Rejects "down") 5000)
                  "req_1000_abc")
               (example_dist_checked example_response)).2
          = Normal (Results "req_1000_abc" "ping" o4_mini_deep_research
                      (reportText example_answer)
                      (imap citation_of example_annotations) 3%nat)) as Hrun
    by reflexivity.
  split; [exact Htrace|]. split; [exact Hrun|].
  destruct (results_are_stable example_index_key
              (example_env (Rejects "down") 5000)
              (example_env (Rejects "gone") 20000) "req_1000_abc"
              (example_dist_checked example_response)
              (Results "req_1000_abc" "ping" o4_mini_deep_research
                 (reportText example_answer)
                 (imap citation_of example_annotations) 3%nat)
              example_later_runs Htrace eq_refl) as [Hdist _].
  exact (f_equal snd (Hdist Hrun)).
Defined.


Lemma research_failure_witness :
  engine (example_env (Resolves example_failed_response) 2000)
         (responses_retrieve (JString "op_1"))
  = Resolves example_failed_response
  /\ is_string (get_field example_failed_response "status") "failed" = true
  /\ exists rs1 rs2 r,
      run (Dist.create (example_env (Rejects "unused") 1000) example_inputs) []
      = (rs1, [create_call example_inputs], Normal (Created "req_1000_abc"))
      /\ run (Dist.check_status
                (example_env (Resolves example_failed_response) 2000)
                "req_1000_abc") rs1
         = (rs2, [responses_retrieve (JString "op_1")],
            Normal (StatusReport "req_1000_abc" failed "ping"
                      o4_mini_deep_research 1000 0))
      /\ requests_get rs2 "req_1000_abc" = Some (0%nat, r)
      /\ error r = Some "Research request failed"
      /\ response r = undefined
      /\ run (Dist.get_results (example_env (Resolves example_response) 3000)
                "req_1000_abc") rs2
         = (rs2, [],
            Normal (Failure ("Request " +:+ "req_1000_abc"
                             +:+ " is not completed. Status: failed") "failed"))
      /\ run (Dist.check_status (example_env (Resolves example_response) 3000)
                "req_1000_abc") rs2
         = (rs2, [],
            Normal (StatusReport "req_1000_abc" failed "ping"
                      o4_mini_deep_research 1000 0)).
Proof.
  split; [reflexivity|]. split; [reflexivity|].
  exact (research_failure
           (example_env (Rejects "unused") 1000)
           (example_env (Resolves example_failed_response) 2000)
           (example_env (Resolves example_response) 3000) example_inputs []
           (JObject [("id", JString "op_1"); ("status", JString "queued")])
           (JString "op_1") example_failed_response
           eq_refl eq_refl eq_refl eq_refl eq_refl eq_refl eq_refl).
Defined.


Lemma status_report_fields_witness :
  (run (Dist.check_status (example_env (Rejects "down") 91000) "req_1000_abc")
       example_dist_created).2
  = Normal (StatusReport "req_1000_abc" pending "ping" o4_mini_deep_research
              1000 2)
  /\ 60000 * 2 - 30000 <= now (example_env (Rejects "down") 91000) - 1000
     < 60000 * 2 + 30000.
Proof.
  assert ((run (Dist.check_status (example_env (Rejects "down") 91000)
                  "req_1000_abc") example_dist_created).2
          = Normal (StatusReport "req_1000_abc" pending "ping"
                      o4_mini_deep_research 1000 2)) as Hrun by reflexivity.
  split; [exact Hrun|].
  destruct (status_report_fields (example_env (Rejects "down") 91000)
              "req_1000_abc" example_dist_created "req_1000_abc" pending
              "ping" o4_mini_deep_research 1000 2 (or_introl Hrun))
    as (_ & _ & Hbounds).
  exact Hbounds.
Defined.

Lemma create_sends_witness :
  engine (example_env (Rejects "unused") 1000)
         (create_call example_guided_inputs)
  = Resolves (JObject [("id", JString "op_1"); ("status", JString "queued")])
  /\ exists r r' messages tool_list,
      run (Dist.create (example_env (Rejects "unused") 1000)
             example_guided_inputs) []
      = (requests_set [] r,
         [responses_create o3_deep_research messages tool_list],
         Normal (Created "req_1000_abc"))
      /\ run (Ts.create (example_env (Rejects "unused") 1000)
                example_guided_inputs) []
         = (requests_set [] r',
            [responses_create o3_deep_research messages tool_list],
            Normal (Created "req_1000_abc"))
      /\ messages = [mkMessage "developer" "Be brief"; mkMessage "user" "ping"]
      /\ In "code_interpreter" tool_list.
Proof.
  split; [reflexivity|].
  assert (JObject [("id", JString "op_1"); ("status", JString "queued")]
          <> JNull) as Hdoc by discriminate.
  assert ("Be brief" <> "") as Hm by discriminate.
  destruct (create_sends (example_env (Rejects "unused") 1000)
              example_guided_inputs []
              (JObject [("id", JString "op_1"); ("status", JString "queued")])
              eq_refl eq_refl Hdoc)
    as (r & r' & messages & tool_list & Hdist & Hts & _ & _ & _ & _ & Hmsg
        & _ & Htools).
  exists r, r', messages, tool_list.
  split; [exact Hdist|]. split; [exact Hts|].
  split; [exact (Hmsg "Be brief" eq_refl Hm)|].
  exact (proj2 Htools eq_refl).
Defined.
